(** * The vSphere cluster reconciler of EKS Anywhere, and the phase runner
      and object applier it drives

    A shallow embedding of [package reconciler] (the vSphere provider's
    cluster reconciler): [VsphereCredentials], [SetupEnvVars], [Reconcile]
    and the five phases [ValidateDatacenterConfig], [ValidateMachineConfigs],
    [ReconcileControlPlane], [ReconcileCNI] and [ReconcileWorkers].

    The phases are Go methods that mutate a shared [*cluster.Spec], the
    process environment and the local object store, and that call
    collaborators held by the [Reconciler] struct.  They are embedded as
    state-passing functions over a [World]; every call that leaves the
    package is recorded in the world's [trace], so that "is never invoked"
    is a statement about that trace. *)

From Stdlib Require Import Ascii String.
From stdpp Require Import base option list strings gmap fin_maps.

Open Scope string_scope.
Open Scope list_scope.

(** ** Go errors *)

(** An [error] value is observed through its [Error()] message.
    [errorString] is what [errors.New] and [fmt.Errorf] build; [Aggregate]
    is one error that holds the errors it was combined from. *)
#[warnings="-register-all"]
Inductive error : Type :=
| errorString (msg : string)
| Aggregate (errs : list error).

Definition errors_New (msg : string) : error := errorString msg.

Fixpoint Error (e : error) : string :=
  match e with
  | errorString msg => msg
  | Aggregate errs =>
      "[" +:+ (fix join (l : list error) : string :=
                 match l with
                 | [] => ""
                 | x :: l' =>
                     match l' with
                     | [] => Error x
                     | _ :: _ => Error x +:+ ", " +:+ join l'
                     end
                 end) errs +:+ "]"
  end.

(** [fmt.Errorf(prefix + "%v", err)]: a fresh error whose message is the
    prefix followed by the message of [err]. *)
Definition fmt_Errorf_v (prefix : string) (err : error) : error :=
  errorString (prefix +:+ Error err).

(** ** The process environment *)

Module os.

Definition has_byte (b : ascii) (s : string) : bool :=
  existsb (Ascii.eqb b) (list_ascii_of_string s).

Definition NUL : ascii := Ascii.zero.

(** What [syscall.Setenv] refuses with EINVAL on Unix: an empty key, a key
    that holds ['='] or a NUL byte, a value that holds a NUL byte. *)
Definition invalid_argument (key value : string) : bool :=
  String.eqb key "" || has_byte "="%char key || has_byte NUL key
  || has_byte NUL value.

Arguments invalid_argument : simpl never.

(** [os.Setenv]: the variable is set, or the environment is left as it was
    and the wrapped system-call error is returned. *)
Definition Setenv (key value : string) (env : gmap string string)
  : option error * gmap string string :=
  if invalid_argument key value
  then (Some (errorString "setenv: invalid argument"), env)
  else (None, <[key := value]> env).

End os.

(** ** The phase runner *)

Module controller.

(** Modelled from the spec: the type [controller.Result]; package
    [controller] declares it, and only its uses are in the reconciler's
    source.  The spec describes it as the signal a phase hands to the
    runner: continue (run the next phase) or stop-clean (end the pass
    without an error); the third state of the spec, fail, is a non-nil
    error that comes with the zero Result. *)
Inductive Result : Type :=
| Continue
| StopClean.

(** Modelled from the spec: the zero value of the type, the Go literal
    [controller.Result{}].  The phases that the spec says "continue"
    ([ReconcileControlPlane], and every phase of the scenario in which all
    five phases run) return this literal with a nil error. *)
Definition Result_zero : Result := Continue.

(** Modelled from the spec: whether a Result asks the runner to end the
    pass. *)
Definition Return (r : Result) : bool :=
  match r with
  | Continue => false
  | StopClean => true
  end.

Section PhaseRunner.

(** The state the phases share: for the reconciler, the cluster spec behind
    the [*cluster.Spec] pointer together with everything else a phase can
    touch. *)
Context {St : Type}.

(** A phase, [func(ctx, log, spec) (Result, error)], as a state-passing
    function. *)
Definition Phase : Type := St -> (Result * option error) * St.

(** Modelled from the spec: the runner, an ordered list of phases, empty
    when [NewPhaseRunner] returns it. *)
Record PhaseRunner : Type := mkPhaseRunner { phases : list Phase }.

Definition NewPhaseRunner : PhaseRunner := mkPhaseRunner [].

(** Modelled from the spec: [Register(phase...)] "appends phases to an
    ordered list and returns the runner". *)
Definition Register (pr : PhaseRunner) (ps : list Phase) : PhaseRunner :=
  mkPhaseRunner (phases pr ++ ps).

(** What one pass leaves behind: the pair [Run] returns, the state after the
    last phase that ran, and (a ghost field) what each invoked phase
    returned, in the order of the invocations. *)
Record Pass : Type := mkPass {
  ret : Result * option error;
  final : St;
  invoked : list (Result * option error)
}.

(** Modelled from the spec: the loop of [Run], a method of package
    [controller] that the reconciler's source only calls.  Step by step as
    the spec lists it: the phases are taken in registration order and
    invoked on the shared state; an error ends the pass with the zero
    Result and that error; a stop-clean Result ends the pass with that
    Result and a nil error; otherwise the loop goes on, and after the last
    phase its Result is returned with a nil error.  [last] is the Result of
    the phase before (the zero Result before the first). *)
Fixpoint run_from (last : Result) (ps : list Phase) (s : St) : Pass :=
  match ps with
  | [] => mkPass (last, None) s []
  | p :: rest =>
      let '(out, s') := p s in
      match out.2 with
      | Some err => mkPass (Result_zero, Some err) s' [out]
      | None =>
          if Return out.1
          then mkPass (out.1, None) s' [out]
          else
            let pass := run_from out.1 rest s' in
            mkPass (ret pass) (final pass) (out :: invoked pass)
      end
  end.

(** Modelled from the spec: [Run(ctx, log, spec)] on the registered
    phases. *)
Definition Run (pr : PhaseRunner) (s : St) : Pass :=
  run_from Result_zero (phases pr) s.

(** The state in which phase [k] starts, when the pass gets that far: the
    phases before it are run one after the other for their effect. *)
Fixpoint state_before (ps : list Phase) (k : nat) (s : St) {struct k} : St :=
  match k with
  | O => s
  | S k' =>
      match ps with
      | [] => s
      | p :: rest => state_before rest k' (p s).2
      end
  end.

End PhaseRunner.

Arguments Phase : clear implicits.
Arguments PhaseRunner : clear implicits.
Arguments Pass : clear implicits.

End controller.

(** ** Objects and the desired-state applier *)

Module kubernetes.

(** A desired object, [kubernetes.Object]: its identity in the store and
    the fields this system manages on it. *)
Record Object : Type := mkObject {
  key : string;
  fields : gmap string string
}.

End kubernetes.

Module serverside.

Import kubernetes.

(** Modelled from the spec: what one attempt on one object came to. *)
Inductive Outcome : Type :=
| Created
| Updated
| Unchanged
| Failed (err : error).

(** Modelled from the spec: [ApplyOutcome], the "per-object success/failure
    record". *)
Record ApplyOutcome : Type := mkApplyOutcome {
  object : Object;
  outcome : Outcome
}.

(** Modelled from the spec: [serverside.ObjectApplier], which holds the
    client of its target store.  The store is an unreliable API: [refuses]
    is how it answers, during one call of [Apply], a create-or-update
    request for an object ([None]: the request is served). *)
Record ObjectApplier : Type := mkObjectApplier {
  refuses : Object -> option error
}.

(** Modelled from the spec: one create-or-update attempt, "using a
    field-ownership comparison that only asserts ownership over fields this
    system manages".  The store maps an object's key to all of its fields,
    those of other writers included.  An object that is not there is
    created; one whose live fields already hold every managed field with the
    desired value is left alone; otherwise the managed fields are written
    over the live ones and the others are kept. *)
Definition reconcileObject (a : ObjectApplier) (o : Object)
    (st : gmap string (gmap string string))
  : ApplyOutcome * gmap string (gmap string string) :=
  match refuses a o with
  | Some err => (mkApplyOutcome o (Failed err), st)
  | None =>
      match st !! key o with
      | None => (mkApplyOutcome o Created, <[key o := fields o]> st)
      | Some live =>
          if bool_decide (fields o ⊆ live)
          then (mkApplyOutcome o Unchanged, st)
          else (mkApplyOutcome o Updated, <[key o := fields o ∪ live]> st)
      end
  end.

(** Modelled from the spec: the loop over the desired objects.  "All
    objects in the set are attempted regardless of individual failures":
    it never leaves early. *)
Fixpoint reconcileObjects (a : ObjectApplier) (objs : list Object)
    (st : gmap string (gmap string string))
  : list ApplyOutcome * gmap string (gmap string string) :=
  match objs with
  | [] => ([], st)
  | o :: rest =>
      let '(out, st') := reconcileObject a o st in
      let '(outs, st'') := reconcileObjects a rest st' in
      (out :: outs, st'')
  end.

Definition failure (out : ApplyOutcome) : option error :=
  match outcome out with
  | Failed err => Some err
  | _ => None
  end.

(** Modelled from the spec: "failures are collected and, if any occurred,
    combined into one descriptive error". *)
Definition aggregate (errs : list error) : option error :=
  match errs with
  | [] => None
  | _ :: _ => Some (Aggregate errs)
  end.


(** The attempts that changed the store. *)
Definition is_write (out : ApplyOutcome) : bool :=
  match outcome out with
  | Created | Updated => true
  | Unchanged | Failed _ => false
  end.

Definition writes (outs : list ApplyOutcome) : list Object :=
  object <$> filter (λ out, is_write out = true) outs.


Record Applied : Type := mkApplied {
  result : controller.Result;
  err : option error;
  store : gmap string (gmap string string);
  outcomes : list ApplyOutcome
}.

(** Modelled from the spec: [Apply(ctx, producer)], a method of package
    [serverside] that the reconciler's source only calls.  The producer is
    invoked once, on every call; its error, if any, is returned as it is
    (the spec leaves this case open); otherwise every object is attempted
    and the failures, if any, come back as one error after the last
    attempt.  A call that goes through hands the runner the continue
    Result. *)
Definition Apply (a : ObjectApplier)
    (generateObjects : unit -> error + list Object)
    (st : gmap string (gmap string string)) : Applied :=
  match generateObjects () with
  | inl err => mkApplied controller.Result_zero (Some err) st []
  | inr objs =>
      let '(outs, st') := reconcileObjects a objs st in
      mkApplied controller.Result_zero (aggregate (omap failure outs)) st' outs
  end.

End serverside.

(** ** The API types the reconciler reads and writes *)

Module apiv1.

(** [apiv1.Secret]; [Data] is Go's [map[string][]byte], a byte slice read
    as the string [string(b)] turns it into. *)
Record Secret : Type := mkSecret {
  Data : gmap string string
}.

End apiv1.

Module client.

(** [client.ObjectKey]: the namespace and name of an object. *)
Record ObjectKey : Type := mkObjectKey {
  Namespace : string;
  Name : string
}.

(** [client.Client], as far as the reconciler itself calls it: [Get] of a
    secret by key.  The reads of one pass are answered by one function. *)
Record Client : Type := mkClient {
  Get : ObjectKey -> error + apiv1.Secret
}.

End client.

(** Modelled from the spec: the types of package [anywherev1] and
    [cluster.Spec], declared outside the reconciler's source.  The spec's
    data model gives the cluster spec a cluster descriptor (name, desired
    version, a mutable status with a free-text failure message), a
    datacenter configuration (a validity flag and an optional failure
    message) and a map from machine-role name to machine configuration.  A
    Go [*string] is an [option string]. *)
Module anywherev1.

Record ClusterStatus : Type := mkClusterStatus {
  ClusterStatus_FailureMessage : option string
}.

Record Cluster : Type := mkCluster {
  Cluster_Name : string;
  Cluster_KubernetesVersion : string;
  Cluster_Status : ClusterStatus
}.

Record VSphereDatacenterConfigStatus : Type := mkVSphereDatacenterConfigStatus {
  VSphereDatacenterConfigStatus_SpecValid : bool;
  VSphereDatacenterConfigStatus_FailureMessage : option string
}.

Record VSphereDatacenterConfig : Type := mkVSphereDatacenterConfig {
  VSphereDatacenterConfig_Name : string;
  VSphereDatacenterConfig_Server : string;
  VSphereDatacenterConfig_Status : VSphereDatacenterConfigStatus
}.

Record VSphereMachineConfig : Type := mkVSphereMachineConfig {
  VSphereMachineConfig_Name : string;
  VSphereMachineConfig_Template : string
}.

End anywherev1.

Module c.

Import anywherev1.

(** Modelled from the spec: [cluster.Spec], imported as [c] by the
    reconciler, with the three parts the spec's data model lists.  The
    phases hold a pointer to one such value; [Cluster] and
    [VSphereDatacenter] are themselves pointers, taken here to be non-nil,
    as in a spec that [BuildSpec] has assembled for a vSphere cluster. *)
Record Spec : Type := mkSpec {
  Cluster : anywherev1.Cluster;
  VSphereDatacenter : VSphereDatacenterConfig;
  VSphereMachineConfigs : gmap string VSphereMachineConfig
}.

(** The assignment [clusterSpec.Cluster.Status.FailureMessage = msg]. *)
Definition set_FailureMessage (msg : option string) (clusterSpec : Spec) : Spec :=
  mkSpec
    (mkCluster (Cluster_Name (Cluster clusterSpec))
       (Cluster_KubernetesVersion (Cluster clusterSpec))
       (mkClusterStatus msg))
    (VSphereDatacenter clusterSpec)
    (VSphereMachineConfigs clusterSpec).

End c.

(** ** The world a pass runs in *)

(** The calls that leave the package, and the entry of each phase (the line
    [log = log.WithValues("phase", name)] every phase starts with). *)
Inductive Event : Type :=
| EvPhase (name : string)
| EvLogError (err : error) (msg : string)
| EvLogInfo (msg : string)
| EvGet (key : client.ObjectKey)
| EvSetenv (key value : string)
| EvVsphereSetupEnvVars (datacenter : anywherev1.VSphereDatacenterConfig)
| EvValidateClusterMachineConfigs (env : gmap string string) (clusterSpec : c.Spec)
| EvGetClient (key : client.ObjectKey)
| EvCNIReconcile (remote : client.Client) (clusterSpec : c.Spec)
| EvWorkersSpec (clusterSpec : c.Spec)
| EvApply (out : serverside.ApplyOutcome).

(** Everything a pass can touch besides the cluster spec: the process
    environment, the content of the local object store that the applier
    writes to, and the trace of events so far (oldest first). *)
Record Process : Type := mkProcess {
  environ : gmap string string;
  objects : gmap string (gmap string string);
  trace : list Event
}.

Record World : Type := mkWorld {
  clusterSpec : c.Spec;
  process : Process
}.

(** A computation of the package: it reads and writes the world and returns
    a value. *)
Definition M (A : Type) : Type := World -> A * World.

#[global] Instance M_ret : MRet M := λ A (a : A) (w : World), (a, w).

#[global] Instance M_bind : MBind M :=
  λ A B (f : A -> M B) (m : M A) (w : World), let '(a, w') := m w in f a w'.

Definition emit (ev : Event) : M unit := λ w,
  ((), mkWorld (clusterSpec w)
         (mkProcess (environ (process w)) (objects (process w))
            (trace (process w) ++ [ev]))).

Definition get_clusterSpec : M c.Spec := λ w, (clusterSpec w, w).

Definition put_clusterSpec (s : c.Spec) : M unit := λ w,
  ((), mkWorld s (process w)).

Definition get_environ : M (gmap string string) := λ w, (environ (process w), w).

Definition put_environ (env : gmap string string) : M unit := λ w,
  ((), mkWorld (clusterSpec w)
         (mkProcess env (objects (process w)) (trace (process w)))).

Definition get_objects : M (gmap string (gmap string string)) := λ w,
  (objects (process w), w).

Definition put_objects (st : gmap string (gmap string string)) : M unit := λ w,
  ((), mkWorld (clusterSpec w)
         (mkProcess (environ (process w)) st (trace (process w)))).

Fixpoint emit_all (evs : list Event) : M unit :=
  match evs with
  | [] => mret ()
  | ev :: rest => emit ev;; emit_all rest
  end.

(** [log.Error(err, msg, ...)] and [log.Info(msg)]. *)
Definition log_Error (err : error) (msg : string) : M unit := emit (EvLogError err msg).

Definition log_Info (msg : string) : M unit := emit (EvLogInfo msg).

(** [os.Setenv] on the world's environment. *)
Definition os_Setenv (key value : string) : M (option error) :=
  emit (EvSetenv key value);;
  env ← get_environ;
  let '(err, env') := os.Setenv key value env in
  put_environ env';;
  mret err.

(** ** The collaborators *)

Module vsphere.

(** [*vsphere.Validator], through the one method the reconciler calls.  The
    validator runs the provider's command-line layer, which reads the
    process environment; it is handed the cluster spec by pointer, so it may
    leave it changed. *)
Record Validator : Type := mkValidator {
  ValidateClusterMachineConfigs :
    gmap string string -> c.Spec -> option error * c.Spec
}.

(** The value [vsphere.WorkersSpec] returns, through the one method the
    reconciler calls on it. *)
Record Workers : Type := mkWorkers {
  WorkerObjects : list kubernetes.Object
}.

End vsphere.

(** The interface [CNIReconciler]; its [Reconcile] gets the spec by
    pointer. *)
Record CNIReconciler : Type := mkCNIReconciler {
  CNIReconciler_Reconcile :
    client.Client -> c.Spec -> (controller.Result * option error) * c.Spec
}.

(** The interface [RemoteClientRegistry]. *)
Record RemoteClientRegistry : Type := mkRemoteClientRegistry {
  RemoteClientRegistry_GetClient : client.ObjectKey -> error + client.Client
}.

(** The struct [Reconciler].  Its [defaulter] field is never read by the
    methods below and is left out. *)
Record Reconciler : Type := mkReconciler {
  r_client : client.Client;
  validator : vsphere.Validator;
  cniReconciler : CNIReconciler;
  remoteClientRegistry : RemoteClientRegistry;
  ObjectApplier : serverside.ObjectApplier
}.

(** What the reconciler imports from the repository's other packages and
    only uses: two constants of [config], one of [vsphere], and four
    functions.  They are parameters of the development. *)
Class Imports : Type := mkImports {
  config_EksavSphereUsernameKey : string;
  config_EksavSpherePasswordKey : string;
  vsphere_CredentialsObjectName : string;
  (** [vsphere.SetupEnvVars(datacenter)]: reads the datacenter config, sets
      further variables of the environment *)
  vsphere_SetupEnvVars :
    anywherev1.VSphereDatacenterConfig -> gmap string string ->
    option error * gmap string string;
  (** [c.BuildSpec(ctx, clientutil.NewKubeClient(cli), cluster)] *)
  c_BuildSpec : client.Client -> anywherev1.Cluster -> error + c.Spec;
  (** [controller.CapiClusterObjectKey(cluster)] *)
  controller_CapiClusterObjectKey : anywherev1.Cluster -> client.ObjectKey;
  (** [vsphere.WorkersSpec(ctx, log, clientutil.NewKubeClient(cli), spec)] *)
  vsphere_WorkersSpec : client.Client -> c.Spec -> error + vsphere.Workers
}.

(** ** Package reconciler *)

Section Reconciler.

Context `{Imports}.

(** The key [VsphereCredentials] looks the secret up under, and the two
    fields [SetupEnvVars] reads from it ([string(secret.Data[k])]: a field
    that is not there reads as the empty string). *)
Definition credentials_key : client.ObjectKey :=
  client.mkObjectKey "eksa-system" vsphere_CredentialsObjectName.

Definition username_of (secret : apiv1.Secret) : string :=
  default "" (apiv1.Data secret !! "username").

Definition password_of (secret : apiv1.Secret) : string :=
  default "" (apiv1.Data secret !! "password").

Definition VsphereCredentials (cli : client.Client) : M (error + apiv1.Secret) :=
  let secretKey := client.mkObjectKey "eksa-system" vsphere_CredentialsObjectName in
  emit (EvGet secretKey);;
  match client.Get cli secretKey with
  | inl err => mret (inl err)
  | inr secret => mret (inr secret)
  end.

(** The call [vsphere.SetupEnvVars(vsphereDatacenter)] on the world's
    environment. *)
Definition call_vsphere_SetupEnvVars
    (vsphereDatacenter : anywherev1.VSphereDatacenterConfig) : M (option error) :=
  emit (EvVsphereSetupEnvVars vsphereDatacenter);;
  env ← get_environ;
  let '(err, env') := vsphere_SetupEnvVars vsphereDatacenter env in
  put_environ env';;
  mret err.

Definition SetupEnvVars (vsphereDatacenter : anywherev1.VSphereDatacenterConfig)
    (cli : client.Client) : M (option error) :=
  res ← VsphereCredentials cli;
  match res with
  | inl err =>
      mret (Some (fmt_Errorf_v "failed getting vsphere credentials secret: " err))
  | inr secret =>
      let vsphereUsername := default "" (apiv1.Data secret !! "username") in
      let vspherePassword := default "" (apiv1.Data secret !! "password") in
      err ← os_Setenv config_EksavSphereUsernameKey vsphereUsername;
      match err with
      | Some err =>
          mret (Some (fmt_Errorf_v
                        ("failed setting env " +:+ config_EksavSphereUsernameKey +:+ ": ")
                        err))
      | None =>
          err ← os_Setenv config_EksavSpherePasswordKey vspherePassword;
          match err with
          | Some err =>
              mret (Some (fmt_Errorf_v
                            ("failed setting env " +:+ config_EksavSpherePasswordKey +:+ ": ")
                            err))
          | None =>
              err ← call_vsphere_SetupEnvVars vsphereDatacenter;
              match err with
              | Some err => mret (Some (fmt_Errorf_v "failed setting env vars: " err))
              | None => mret None
              end
          end
      end
  end.

(** [ValidateDatacenterConfig] updates the cluster status if the
    VSphereDatacenter status indicates that the spec is invalid. *)
Definition ValidateDatacenterConfig (r : Reconciler)
  : M (controller.Result * option error) :=
  emit (EvPhase "validateDatacenterConfig");;
  clusterSpec ← get_clusterSpec;
  let dataCenterConfig := c.VSphereDatacenter clusterSpec in
  let status := anywherev1.VSphereDatacenterConfig_Status dataCenterConfig in
  if negb (anywherev1.VSphereDatacenterConfigStatus_SpecValid status)
  then
    let failureMessage :=
      match anywherev1.VSphereDatacenterConfigStatus_FailureMessage status with
      | Some msg => msg
      | None => ""
      end in
    log_Error (errors_New failureMessage) "Invalid VSphereDatacenterConfig";;
    put_clusterSpec (c.set_FailureMessage (Some failureMessage) clusterSpec);;
    mret (controller.Result_zero, None)
  else mret (controller.Result_zero, None).

(** The call [r.validator.ValidateClusterMachineConfigs(ctx,
    vsphere.NewSpec(clusterSpec))]; [vsphere.NewSpec] wraps the pointer. *)
Definition call_ValidateClusterMachineConfigs (v : vsphere.Validator)
  : M (option error) :=
  clusterSpec ← get_clusterSpec;
  env ← get_environ;
  emit (EvValidateClusterMachineConfigs env clusterSpec);;
  let '(err, clusterSpec') := vsphere.ValidateClusterMachineConfigs v env clusterSpec in
  put_clusterSpec clusterSpec';;
  mret err.

(** [ValidateMachineConfigs] performs additional, context-aware validations
    on the machine configs. *)
Definition ValidateMachineConfigs (r : Reconciler)
  : M (controller.Result * option error) :=
  emit (EvPhase "validateMachineConfigs");;
  clusterSpec ← get_clusterSpec;
  let datacenterConfig := c.VSphereDatacenter clusterSpec in
  (* Set up env vars for executing Govc cmd *)
  err ← SetupEnvVars datacenterConfig (r_client r);
  match err with
  | Some err =>
      log_Error err "Failed to set up env vars for Govc";;
      mret (controller.Result_zero, Some err)
  | None =>
      err ← call_ValidateClusterMachineConfigs (validator r);
      match err with
      | Some err =>
          log_Error err "Invalid VSphereMachineConfig";;
          let failureMessage := Error err in
          clusterSpec ← get_clusterSpec;
          put_clusterSpec (c.set_FailureMessage (Some failureMessage) clusterSpec);;
          mret (controller.Result_zero, Some err)
      | None => mret (controller.Result_zero, None)
      end
  end.

(** [ReconcileControlPlane] applies the control plane CAPI objects to the
    cluster (not implemented yet: it logs and returns). *)
Definition ReconcileControlPlane (r : Reconciler)
  : M (controller.Result * option error) :=
  emit (EvPhase "reconcileControlPlane");;
  log_Info "Applying control plane CAPI objects";;
  mret (controller.Result_zero, None).

(** The call [r.cniReconciler.Reconcile(ctx, log, client, clusterSpec)]. *)
Definition call_CNIReconciler_Reconcile (cni : CNIReconciler) (remote : client.Client)
  : M (controller.Result * option error) :=
  clusterSpec ← get_clusterSpec;
  emit (EvCNIReconcile remote clusterSpec);;
  let '(res, clusterSpec') := CNIReconciler_Reconcile cni remote clusterSpec in
  put_clusterSpec clusterSpec';;
  mret res.

(** [ReconcileCNI] takes the Cilium CNI in a cluster to the desired state
    defined in a cluster spec. *)
Definition ReconcileCNI (r : Reconciler)
  : M (controller.Result * option error) :=
  emit (EvPhase "reconcileCNI");;
  clusterSpec ← get_clusterSpec;
  let key := controller_CapiClusterObjectKey (c.Cluster clusterSpec) in
  emit (EvGetClient key);;
  match RemoteClientRegistry_GetClient (remoteClientRegistry r) key with
  | inl err => mret (controller.Result_zero, Some err)
  | inr remote => call_CNIReconciler_Reconcile (cniReconciler r) remote
  end.

(** [r.Apply], the method the embedded [*serverside.ObjectApplier] lends
    the reconciler: the producer is a closure over the world, the target
    store is the local one, and every attempt is traced. *)
Definition Apply (r : Reconciler)
    (generateObjects : M (error + list kubernetes.Object))
  : M (controller.Result * option error) :=
  desired ← generateObjects;
  st ← get_objects;
  let applied := serverside.Apply (ObjectApplier r) (λ _, desired) st in
  emit_all (EvApply <$> serverside.outcomes applied);;
  put_objects (serverside.store applied);;
  mret (serverside.result applied, serverside.err applied).

(** [ReconcileWorkers] applies the worker CAPI objects to the cluster. *)
Definition ReconcileWorkers (r : Reconciler)
  : M (controller.Result * option error) :=
  emit (EvPhase "reconcileWorkers");;
  log_Info "Applying worker CAPI objects";;
  Apply r
    (clusterSpec ← get_clusterSpec;
     emit (EvWorkersSpec clusterSpec);;
     match vsphere_WorkersSpec (r_client r) clusterSpec with
     | inl err => mret (inl err)
     | inr w => mret (inr (vsphere.WorkerObjects w))
     end).

(** The runner [Reconcile] builds:
    [controller.NewPhaseRunner().Register(...)]. *)
Definition Reconcile_runner (r : Reconciler) : controller.PhaseRunner World :=
  controller.Register controller.NewPhaseRunner
    [ ValidateDatacenterConfig r : controller.Phase World;
      ValidateMachineConfigs r : controller.Phase World;
      ReconcileControlPlane r : controller.Phase World;
      ReconcileCNI r : controller.Phase World;
      ReconcileWorkers r : controller.Phase World ].

(** [Reconcile]: the cluster spec is built and the five phases are run on
    it.  The caller gets the Result and the error; the process state after
    the call is returned beside them. *)
Definition Reconcile (r : Reconciler) (cluster : anywherev1.Cluster) (p : Process)
  : (controller.Result * option error) * Process :=
  match c_BuildSpec (r_client r) cluster with
  | inl err => ((controller.Result_zero, Some err), p)
  | inr clusterSpec =>
      let pass := controller.Run (Reconcile_runner r) (mkWorld clusterSpec p) in
      (controller.ret pass, process (controller.final pass))
  end.

End Reconciler.

(** ** Observations on a pass *)

(** The world [w] with the events [evs] added to its trace. *)
Definition record (evs : list Event) (w : World) : World :=
  mkWorld (clusterSpec w)
    (mkProcess (environ (process w)) (objects (process w))
       (trace (process w) ++ evs)).

(** The events a computation added: what the trace of [w'] holds beyond the
    trace of [w]. *)
Definition new_events (w w' : World) : list Event :=
  drop (length (trace (process w))) (trace (process w')).

(** The phases entered, by name, in the order of entry. *)
Definition phase_entry (ev : Event) : option string :=
  match ev with
  | EvPhase name => Some name
  | _ => None
  end.

Definition phase_entries (evs : list Event) : list string := omap phase_entry evs.

Definition is_validation_call (ev : Event) : bool :=
  match ev with
  | EvValidateClusterMachineConfigs _ _ => true
  | _ => false
  end.

Definition failureMessage_of (w : World) : option string :=
  anywherev1.ClusterStatus_FailureMessage
    (anywherev1.Cluster_Status (c.Cluster (clusterSpec w))).

Definition datacenter_status (w : World) : anywherev1.VSphereDatacenterConfigStatus :=
  anywherev1.VSphereDatacenterConfig_Status (c.VSphereDatacenter (clusterSpec w)).

(** A phase that announces itself under [name] and enters no other phase. *)
Definition enters (name : string) (p : controller.Phase World) : Prop :=
  ∀ w, ∃ evs, trace (process (p w).2) = trace (process w) ++ EvPhase name :: evs
              ∧ phase_entries evs = [].

(** The names of the five phases, in the order [Reconcile] registers
    them. *)
Definition phase_names : list string :=
  [ "validateDatacenterConfig"; "validateMachineConfigs";
    "reconcileControlPlane"; "reconcileCNI"; "reconcileWorkers" ].

(** ** Concrete collaborators, for evaluating the code *)

Module scenario.

Definition secret : apiv1.Secret :=
  apiv1.mkSecret {[ "username" := "administrator"; "password" := "hunter2" ]}.

Definition store_up : client.Client := client.mkClient (λ _, inr secret).

Definition store_down : client.Client :=
  client.mkClient (λ _, inl (errorString "secrets not found")).

Definition remote : client.Client :=
  client.mkClient (λ _, inl (errorString "no secrets on the workload cluster")).

Definition validator_ok : vsphere.Validator :=
  vsphere.mkValidator (λ _ s, (None, s)).

Definition validator_rejects : vsphere.Validator :=
  vsphere.mkValidator (λ _ s, (Some (errorString "template not found"), s)).

Definition cni_ok : CNIReconciler :=
  mkCNIReconciler (λ _ s, ((controller.Result_zero, None), s)).

Definition registry_up : RemoteClientRegistry :=
  mkRemoteClientRegistry (λ _, inr remote).

Definition registry_down : RemoteClientRegistry :=
  mkRemoteClientRegistry (λ _, inl (errorString "workload cluster unreachable")).

Definition A : kubernetes.Object :=
  kubernetes.mkObject "MachineDeployment/md-0" {[ "replicas" := "3" ]}.

Definition B : kubernetes.Object :=
  kubernetes.mkObject "KubeadmConfigTemplate/md-0" {[ "users" := "ec2-user" ]}.

Definition C : kubernetes.Object :=
  kubernetes.mkObject "VSphereMachineTemplate/md-0" {[ "template" := "ubuntu" ]}.

(** The object [A] once more, under the same key, with another desired
    value. *)
Definition A_resized : kubernetes.Object :=
  kubernetes.mkObject "MachineDeployment/md-0" {[ "replicas" := "5" ]}.

Definition applier_ok : serverside.ObjectApplier :=
  serverside.mkObjectApplier (λ _, None).

(** A store that refuses the object [B] and serves every other one. *)
Definition applier_refuses_B : serverside.ObjectApplier :=
  serverside.mkObjectApplier
    (λ o, if String.eqb (kubernetes.key o) (kubernetes.key B)
          then Some (errorString "admission webhook denied the request")
          else None).

(** A store that is down: every request fails. *)
Definition applier_down : serverside.ObjectApplier :=
  serverside.mkObjectApplier (λ _, Some (errorString "connection refused")).

Definition datacenter_valid : anywherev1.VSphereDatacenterConfig :=
  anywherev1.mkVSphereDatacenterConfig "dc" "vcenter.example.com"
    (anywherev1.mkVSphereDatacenterConfigStatus true None).

Definition datacenter_invalid : anywherev1.VSphereDatacenterConfig :=
  anywherev1.mkVSphereDatacenterConfig "dc" "vcenter.example.com"
    (anywherev1.mkVSphereDatacenterConfigStatus false (Some "datacenter not found")).

Definition datacenter_invalid_no_message : anywherev1.VSphereDatacenterConfig :=
  anywherev1.mkVSphereDatacenterConfig "dc" "vcenter.example.com"
    (anywherev1.mkVSphereDatacenterConfigStatus false None).

Definition cluster : anywherev1.Cluster :=
  anywherev1.mkCluster "w01" "1.24" (anywherev1.mkClusterStatus None).

Definition unnamed_cluster : anywherev1.Cluster :=
  anywherev1.mkCluster "" "1.24" (anywherev1.mkClusterStatus None).

Definition machines : gmap string anywherev1.VSphereMachineConfig :=
  {[ "w01-cp" := anywherev1.mkVSphereMachineConfig "w01-cp" "ubuntu" ]}.

Definition spec_of (dc : anywherev1.VSphereDatacenterConfig) : c.Spec :=
  c.mkSpec cluster dc machines.

(** The imports: the spec builder fails on a cluster with no name and
    otherwise finds a valid datacenter config, the workers are the three
    objects [A], [B], [C]. *)
Definition imports : Imports :=
  mkImports "EKSA_VSPHERE_USERNAME" "EKSA_VSPHERE_PASSWORD" "vsphere-credentials"
    (λ datacenter env,
       (None, <["VSPHERE_SERVER" := anywherev1.VSphereDatacenterConfig_Server datacenter]> env))
    (λ _ cl, if String.eqb (anywherev1.Cluster_Name cl) ""
             then inl (errorString "cluster has no name")
             else inr (c.mkSpec cl datacenter_valid machines))
    (λ cl, client.mkObjectKey "eksa-system" (anywherev1.Cluster_Name cl))
    (λ _ _, inr (vsphere.mkWorkers [A; B; C])).

Definition green : Reconciler :=
  mkReconciler store_up validator_ok cni_ok registry_up applier_ok.

Definition no_credentials : Reconciler :=
  mkReconciler store_down validator_ok cni_ok registry_up applier_ok.

Definition bad_machines : Reconciler :=
  mkReconciler store_up validator_rejects cni_ok registry_up applier_ok.

Definition unreachable : Reconciler :=
  mkReconciler store_up validator_ok cni_ok registry_down applier_ok.

Definition idle : Process := mkProcess ∅ ∅ [].

Definition start (dc : anywherev1.VSphereDatacenterConfig) : World :=
  mkWorld (spec_of dc) idle.

(** Phases over a counter, to exercise the runner on its own. *)
Definition tick : controller.Phase nat := λ n, ((controller.Continue, None), S n).

Definition halt : controller.Phase nat := λ n, ((controller.StopClean, None), S n).

Definition boom : controller.Phase nat :=
  λ n, ((controller.Result_zero, Some (errorString "boom")), S n).

End scenario.

(** ** More concrete inputs *)

Module more.

(** A secret whose password holds a NUL byte, which [os.Setenv] refuses. *)
Definition secret_binary_password : apiv1.Secret :=
  apiv1.mkSecret
    {[ "username" := "administrator"; "password" := String os.NUL "hunter2" ]}.

(** A secret with neither field. *)
Definition secret_empty : apiv1.Secret := apiv1.mkSecret ∅.

(** A cluster status that still holds the message of an earlier pass. *)
Definition spec_with_stale_message : c.Spec :=
  c.set_FailureMessage (Some "datacenter not found")
    (scenario.spec_of scenario.datacenter_valid).

End more.

(** ** Package e2e: the test runners *)

(** [os.LookupEnv] and [os.Getenv] on an environment, and
    [strconv.FormatBool]. *)
Definition os_LookupEnv (key : string) (env : gmap string string) : string * bool :=
  match env !! key with
  | Some value => (value, true)
  | None => ("", false)
  end.

Definition os_Getenv (key : string) (env : gmap string string) : string :=
  (os_LookupEnv key env).1.

Definition strconv_FormatBool (b : bool) : string :=
  if b then "true" else "false".

Module e2e.

Definition testRunnerVCUserEnvVar : string := "TEST_RUNNER_GOVC_USERNAME".
Definition testRunnerVCPasswordEnvVar : string := "TEST_RUNNER_GOVC_PASSWORD".
Definition govcUsernameKey : string := "GOVC_USERNAME".
Definition govcPasswordKey : string := "GOVC_PASSWORD".
Definition govcURLKey : string := "GOVC_URL".
Definition govcInsecure : string := "GOVC_INSECURE".

(** The struct [VSphereTestRunner], with the [InstanceID] of the embedded
    [testRunner]. *)
Record VSphereTestRunner : Type := mkVSphereTestRunner {
  InstanceID : string;
  ActivationId : string;
  Url : string;
  Insecure : bool;
  Library : string;
  Template : string;
  Datacenter : string;
  Datastore : string;
  ResourcePool : string;
  Network : string;
  Folder : string
}.

Definition getTestRunnerName (jobId : string) : string := "eksa-e2e-" +:+ jobId.

(** [VSphereTestRunner.setEnvironment], on the process environment. *)
Definition setEnvironment (v : VSphereTestRunner) (env : gmap string string)
  : option error * gmap string string :=
  let '(vSphereUsername, ok) := os_LookupEnv testRunnerVCUserEnvVar env in
  if ok && (0 <? String.length vSphereUsername)%nat
  then
    match os.Setenv govcUsernameKey vSphereUsername env with
    | (Some err, env) =>
        (Some (errorString ("unable to set " +:+ govcUsernameKey +:+ ": " +:+ Error err)),
         env)
    | (None, env) =>
        let '(vSpherePassword, ok) := os_LookupEnv testRunnerVCPasswordEnvVar env in
        if ok && (0 <? String.length vSpherePassword)%nat
        then
          match os.Setenv govcPasswordKey vSpherePassword env with
          | (Some err, env) =>
              (Some (errorString
                       ("unable to set " +:+ govcPasswordKey +:+ ": " +:+ Error err)),
               env)
          | (None, env) =>
              match os.Setenv govcURLKey (Url v) env with
              | (Some err, env) =>
                  (Some (errorString
                           ("unable to set " +:+ govcURLKey +:+ ": " +:+ Error err)),
                   env)
              | (None, env) =>
                  match os.Setenv govcInsecure (strconv_FormatBool (Insecure v)) env with
                  | (Some err, env) =>
                      (Some (errorString
                               ("unable to set " +:+ govcURLKey +:+ ": " +:+ Error err)),
                       env)
                  | (None, env) => (None, env)
                  end
              end
          end
        else
          (Some (errorString
                   ("missing environment variable: " +:+ testRunnerVCPasswordEnvVar)),
           env)
    end
  else
    (Some (errorString ("missing environment variable: " +:+ testRunnerVCUserEnvVar)),
     env).

(** What the runner's teardown calls outside the file: two functions of
    package [ssm] and [vsphereRmVms].  Each acts on the state of the
    infrastructure and may fail. *)
Class Infra : Type := mkInfra {
  Session : Type;
  Cloud : Type;
  ssm_DeregisterInstance : Session -> string -> Cloud -> option error * Cloud;
  ssm_DeleteActivation : Session -> string -> Cloud -> option error * Cloud;
  vsphereRmVms : string -> Cloud -> option error * Cloud
}.

Section Runner.

Context `{Infra}.

(** The struct [instanceRunConf], through the fields the runners read. *)
Record instanceRunConf : Type := mkInstanceRunConf {
  session : Session;
  jobId : string;
  instanceId : string;
  instanceProfileName : string
}.

(** [VSphereTestRunner.decommInstance]. *)
Definition decommInstance (v : VSphereTestRunner) (c : instanceRunConf) (cloud : Cloud)
  : option error * Cloud :=
  let '(deregisterError, cloud) := ssm_DeregisterInstance (session c) (InstanceID v) cloud in
  let '(deactivateError, cloud) := ssm_DeleteActivation (session c) (ActivationId v) cloud in
  let '(deleteError, cloud) := vsphereRmVms (getTestRunnerName (jobId c)) cloud in
  match deregisterError with
  | Some deregisterError =>
      (Some (fmt_Errorf_v "failed to decommission vsphere test runner ssm instance: "
               deregisterError), cloud)
  | None =>
      match deactivateError with
      | Some deactivateError =>
          (Some (fmt_Errorf_v "failed to decommission vsphere test runner ssm instance: "
                   deactivateError), cloud)
      | None =>
          match deleteError with
          | Some deleteError =>
              (Some (fmt_Errorf_v
                       "failed to decommission vsphere test runner ssm instance: "
                       deleteError), cloud)
          | None => (None, cloud)
          end
      end
  end.

End Runner.

(** An infrastructure for evaluating the teardown: the state is the list of
    what is still there; deregistering fails for an unknown instance. *)
Definition infra : Infra :=
  mkInfra unit (list string)
    (λ _ id cloud,
       if bool_decide (id ∈ cloud)
       then (None, filter (λ x, x ≠ id) cloud)
       else (Some (errorString "instance not registered"), cloud))
    (λ _ id cloud, (None, filter (λ x, x ≠ id) cloud))
    (λ name cloud, (None, filter (λ x, x ≠ name) cloud)).

Definition runner : VSphereTestRunner :=
  mkVSphereTestRunner "mi-0123" "act-42" "https://vcenter.example.com" true
    "lib" "tpl" "dc" "ds" "pool" "net" "folder".

End e2e.

(** ** Package api: the Tinkerbell config fillers *)

Module tinkerbell.

(** The workflow types of the Tinkerbell templates, through the fields the
    fillers read and write.  [Environment] is a Go map and may be nil. *)
Record Action : Type := mkAction {
  Action_Name : string;
  Action_Environment : option (gmap string string)
}.

Record Task : Type := mkTask {
  Task_Actions : list Action
}.

Record Workflow : Type := mkWorkflow {
  Workflow_Tasks : list Task
}.

End tinkerbell.

Module v1alpha1.

(** The Tinkerbell API types of package [v1alpha1] (imported as
    [anywherev1] too), through the fields the fillers read and write. *)
Record UserConfiguration : Type := mkUserConfiguration {
  UserConfiguration_Name : string;
  UserConfiguration_SshAuthorizedKeys : list string
}.

Record Ref : Type := mkRef {
  Ref_Name : string;
  Ref_Kind : string
}.

Record TinkerbellMachineConfigSpec : Type := mkTinkerbellMachineConfigSpec {
  HardwareSelector : gmap string string;
  TemplateRef : Ref;
  OSFamily : string;
  Users : list UserConfiguration
}.

Record TinkerbellMachineConfig : Type := mkTinkerbellMachineConfig {
  TinkerbellMachineConfig_Kind : string;
  TinkerbellMachineConfig_APIVersion : string;
  TinkerbellMachineConfig_Name : string;
  TinkerbellMachineConfig_Spec : TinkerbellMachineConfigSpec
}.

Record TinkerbellTemplateConfig : Type := mkTinkerbellTemplateConfig {
  TinkerbellTemplateConfig_Name : string;
  TinkerbellTemplateConfig_Template : tinkerbell.Workflow
}.

Record TinkerbellDatacenterConfigSpec : Type := mkTinkerbellDatacenterConfigSpec {
  TinkerbellIP : string;
  OSImageURL : string
}.

Record TinkerbellDatacenterConfig : Type := mkTinkerbellDatacenterConfig {
  TinkerbellDatacenterConfig_Spec : TinkerbellDatacenterConfigSpec
}.

(** Assignments to one field of a machine config, [m.Spec.f = x]. *)
Definition set_Spec (f : TinkerbellMachineConfigSpec -> TinkerbellMachineConfigSpec)
    (m : TinkerbellMachineConfig) : TinkerbellMachineConfig :=
  mkTinkerbellMachineConfig (TinkerbellMachineConfig_Kind m)
    (TinkerbellMachineConfig_APIVersion m) (TinkerbellMachineConfig_Name m)
    (f (TinkerbellMachineConfig_Spec m)).

Definition set_HardwareSelector (sel : gmap string string)
    (s : TinkerbellMachineConfigSpec) : TinkerbellMachineConfigSpec :=
  mkTinkerbellMachineConfigSpec sel (TemplateRef s) (OSFamily s) (Users s).

Definition set_TemplateRef (ref : Ref)
    (s : TinkerbellMachineConfigSpec) : TinkerbellMachineConfigSpec :=
  mkTinkerbellMachineConfigSpec (HardwareSelector s) ref (OSFamily s) (Users s).

Definition set_OSFamily (value : string)
    (s : TinkerbellMachineConfigSpec) : TinkerbellMachineConfigSpec :=
  mkTinkerbellMachineConfigSpec (HardwareSelector s) (TemplateRef s) value (Users s).

Definition set_Users (users : list UserConfiguration)
    (s : TinkerbellMachineConfigSpec) : TinkerbellMachineConfigSpec :=
  mkTinkerbellMachineConfigSpec (HardwareSelector s) (TemplateRef s) (OSFamily s) users.

Definition set_User_Name (name : string) (u : UserConfiguration) : UserConfiguration :=
  mkUserConfiguration name (UserConfiguration_SshAuthorizedKeys u).

Definition set_User_SshAuthorizedKeys (keys : list string) (u : UserConfiguration)
  : UserConfiguration :=
  mkUserConfiguration (UserConfiguration_Name u) keys.

End v1alpha1.

Module api.

Import tinkerbell v1alpha1.

(** A Go call returns, or panics (a write to a nil map, a nil pointer
    dereference). *)
Inductive outcome (A : Type) : Type :=
| Returned (a : A)
| Panicked (reason : string).

Arguments Returned {A} a.
Arguments Panicked {A} reason.

(** The struct [TinkerbellConfig].  Its fields are a pointer and Go maps of
    pointers: what a filler writes through them is seen by the caller, so a
    filler is a function from the config to the config it leaves.  The maps
    themselves and the pointers in them are taken to be non-nil, and no two
    names to share a pointer, as in a config read from a file. *)
Record TinkerbellConfig : Type := mkTinkerbellConfig {
  clusterConfig : anywherev1.Cluster;
  datacenterConfig : TinkerbellDatacenterConfig;
  machineConfigs : gmap string TinkerbellMachineConfig;
  templateConfigs : gmap string TinkerbellTemplateConfig
}.

Definition set_datacenterConfig (dc : TinkerbellDatacenterConfig)
    (config : TinkerbellConfig) : TinkerbellConfig :=
  mkTinkerbellConfig (clusterConfig config) dc (machineConfigs config)
    (templateConfigs config).

Definition set_machineConfigs (ms : gmap string TinkerbellMachineConfig)
    (config : TinkerbellConfig) : TinkerbellConfig :=
  mkTinkerbellConfig (clusterConfig config) (datacenterConfig config) ms
    (templateConfigs config).

Definition set_templateConfigs (ts : gmap string TinkerbellTemplateConfig)
    (config : TinkerbellConfig) : TinkerbellConfig :=
  mkTinkerbellConfig (clusterConfig config) (datacenterConfig config)
    (machineConfigs config) ts.

(** [type TinkerbellFiller func(config TinkerbellConfig) error]. *)
Definition TinkerbellFiller : Type :=
  TinkerbellConfig -> outcome (option error * TinkerbellConfig).

(** What the fillers and [AutoFillTinkerbellProvider] take from other
    files of the repository and from the YAML library: the readers of the
    config file, the marshaller and the joiner of YAML documents, the node
    names of [providers], the label constants of package [api], the kinds
    and the group version of [v1alpha1], and the two functions behind the
    template fillers. *)
Inductive Resource : Type :=
| DatacenterResource (dc : TinkerbellDatacenterConfig)
| MachineResource (m : TinkerbellMachineConfig)
| TemplateResource (t : TinkerbellTemplateConfig).

Class Externals : Type := mkExternals {
  GetTinkerbellDatacenterConfig : string -> error + TinkerbellDatacenterConfig;
  GetTinkerbellMachineConfigs : string -> error + gmap string TinkerbellMachineConfig;
  GetTinkerbellTemplateConfig : string -> error + gmap string TinkerbellTemplateConfig;
  GetClusterConfig : string -> error + anywherev1.Cluster;
  yaml_Marshal : Resource -> error + string;
  templater_AppendYamlResources : list string -> string;
  providers_GetControlPlaneNodeName : string -> string;
  providers_GetEtcdNodeName : string -> string;
  HardwareLabelTypeKeyName : string;
  ControlPlane : string;
  Worker : string;
  ExternalEtcd : string;
  TinkerbellMachineConfigKind : string;
  TinkerbellTemplateConfigKind : string;
  GroupVersion_String : string;
  VersionsBundle : Type;
  (** [cluster.GetVersionsBundleForVersion(version.Get(), kubeVersion)] *)
  GetVersionsBundleForVersion : string -> error + VersionsBundle;
  (** [v1alpha1.NewDefaultTinkerbellTemplateConfigCreate(name, bundle, disk,
      osImageURL, bootstrapIp, ip, osFamily)] *)
  NewDefaultTinkerbellTemplateConfigCreate :
    string -> VersionsBundle -> string -> string -> string -> string -> string ->
    TinkerbellTemplateConfig
}.

(** A loop [for _, x := range xs] whose body may panic, over a slice and
    over the values of a map (in the order Go happens to pick). *)
Fixpoint each {A : Type} (body : A -> outcome A) (xs : list A) : outcome (list A) :=
  match xs with
  | [] => Returned []
  | x :: rest =>
      match body x with
      | Panicked reason => Panicked reason
      | Returned x' =>
          match each body rest with
          | Panicked reason => Panicked reason
          | Returned rest' => Returned (x' :: rest')
          end
      end
  end.

Definition each_value {A : Type} (body : A -> outcome A) (m : gmap string A)
  : outcome (gmap string A) :=
  map_fold
    (λ k x done,
       match done with
       | Panicked reason => Panicked reason
       | Returned m' =>
           match body x with
           | Panicked reason => Panicked reason
           | Returned x' => Returned (<[k := x']> m')
           end
       end)
    (Returned ∅) m.

Section Fillers.

Context `{Externals}.

Definition WithTinkerbellServer (value : string) : TinkerbellFiller := λ config,
  Returned
    (None,
     set_datacenterConfig
       (mkTinkerbellDatacenterConfig
          (mkTinkerbellDatacenterConfigSpec value
             (OSImageURL (TinkerbellDatacenterConfig_Spec (datacenterConfig config)))))
       config).

Definition WithTinkerbellOSImageURL (value : string) : TinkerbellFiller := λ config,
  Returned
    (None,
     set_datacenterConfig
       (mkTinkerbellDatacenterConfig
          (mkTinkerbellDatacenterConfigSpec
             (TinkerbellIP (TinkerbellDatacenterConfig_Spec (datacenterConfig config)))
             value))
       config).

(** [WithStringFromEnvVarTinkerbell]: the variable is read when the filler
    is built, not when it is applied. *)
Definition WithStringFromEnvVarTinkerbell (env : gmap string string) (envVar : string)
    (opt : string -> TinkerbellFiller) : TinkerbellFiller :=
  opt (os_Getenv envVar env).

Definition WithOsFamilyForAllTinkerbellMachines (value : string) : TinkerbellFiller :=
  λ config,
  Returned
    (None,
     set_machineConfigs (set_Spec (set_OSFamily value) <$> machineConfigs config) config).

(** The body of the innermost loop of [WithImageUrlForAllTinkerbellMachines]:
    [action.Environment["IMG_URL"] = value] on an action named
    [stream-image]. *)
Definition stream_image (value : string) (action : Action) : outcome Action :=
  if String.eqb (Action_Name action) "stream-image"
  then
    match Action_Environment action with
    | None => Panicked "assignment to entry in nil map"
    | Some env => Returned (mkAction (Action_Name action) (Some (<["IMG_URL" := value]> env)))
    end
  else Returned action.

Definition each_action (body : Action -> outcome Action) (t : TinkerbellTemplateConfig)
  : outcome TinkerbellTemplateConfig :=
  match each (λ task,
                match each body (Task_Actions task) with
                | Panicked reason => Panicked reason
                | Returned actions => Returned (mkTask actions)
                end)
          (Workflow_Tasks (TinkerbellTemplateConfig_Template t)) with
  | Panicked reason => Panicked reason
  | Returned tasks =>
      Returned (mkTinkerbellTemplateConfig (TinkerbellTemplateConfig_Name t)
                  (mkWorkflow tasks))
  end.

Definition WithImageUrlForAllTinkerbellMachines (value : string) : TinkerbellFiller :=
  λ config,
  match each_value (each_action (stream_image value)) (templateConfigs config) with
  | Panicked reason => Panicked reason
  | Returned ts => Returned (None, set_templateConfigs ts config)
  end.

(** The body of the loop of [WithSSHAuthorizedKeyForAllTinkerbellMachines]. *)
Definition authorize (key : string) (m : TinkerbellMachineConfig)
  : TinkerbellMachineConfig :=
  let m :=
    if (length (Users (TinkerbellMachineConfig_Spec m)) =? 0)%nat
    then set_Spec (set_Users [mkUserConfiguration "" []]) m
    else m in
  let m :=
    set_Spec (λ s, set_Users (alter (set_User_Name "ec2-user") 0%nat (Users s)) s) m in
  set_Spec
    (λ s, set_Users (alter (set_User_SshAuthorizedKeys [key]) 0%nat (Users s)) s) m.

Definition WithSSHAuthorizedKeyForAllTinkerbellMachines (key : string)
  : TinkerbellFiller := λ config,
  Returned (None, set_machineConfigs (authorize key <$> machineConfigs config) config).

Definition WithHardwareSelectorLabels : TinkerbellFiller := λ config,
  let clusterName := anywherev1.Cluster_Name (clusterConfig config) in
  let cpName := providers_GetControlPlaneNodeName clusterName in
  let workerName := clusterName in
  match machineConfigs config !! cpName with
  | None => Panicked "nil pointer dereference"
  | Some cpMachineConfig =>
      let cpMachineConfig :=
        set_Spec (set_HardwareSelector {[ HardwareLabelTypeKeyName := ControlPlane ]})
          cpMachineConfig in
      let config := set_machineConfigs (<[cpName := cpMachineConfig]> (machineConfigs config))
                      config in
      match machineConfigs config !! workerName with
      | None => Panicked "nil pointer dereference"
      | Some workerMachineConfig =>
          let workerMachineConfig :=
            set_Spec (set_HardwareSelector {[ HardwareLabelTypeKeyName := Worker ]})
              workerMachineConfig in
          Returned
            (None,
             set_machineConfigs
               (<[workerName := workerMachineConfig]> (machineConfigs config)) config)
      end
  end.

Definition WithTinkerbellEtcdMachineConfig : TinkerbellFiller := λ config,
  let clusterName := anywherev1.Cluster_Name (clusterConfig config) in
  let name := providers_GetEtcdNodeName clusterName in
  match machineConfigs config !! name with
  | Some _ => Returned (None, config)
  | None =>
      let m :=
        mkTinkerbellMachineConfig TinkerbellMachineConfigKind GroupVersion_String name
          (mkTinkerbellMachineConfigSpec
             {[ HardwareLabelTypeKeyName := ExternalEtcd ]}
             (mkRef clusterName TinkerbellTemplateConfigKind) "" []) in
      Returned (None, set_machineConfigs (<[name := m]> (machineConfigs config)) config)
  end.

Definition WithCustomTinkerbellMachineConfig (selector : string) : TinkerbellFiller :=
  λ config,
  match machineConfigs config !! selector with
  | Some _ => Returned (None, config)
  | None =>
      let m :=
        mkTinkerbellMachineConfig TinkerbellMachineConfigKind GroupVersion_String selector
          (mkTinkerbellMachineConfigSpec
             {[ HardwareLabelTypeKeyName := selector ]} (mkRef "" "") "" []) in
      Returned (None, set_machineConfigs (<[selector := m]> (machineConfigs config)) config)
  end.

Definition WithCustomControlPlaneTemplateConfig
    (tinkerbellBootstrapIp tinkerbellIp disk osFamily : string) : TinkerbellFiller :=
  λ config,
  match GetVersionsBundleForVersion
          (anywherev1.Cluster_KubernetesVersion (clusterConfig config)) with
  | inl err =>
      Returned (Some (fmt_Errorf_v "creating control plane node template config: " err),
                config)
  | inr versionBundle =>
      let clusterName := anywherev1.Cluster_Name (clusterConfig config) in
      let cpName := providers_GetControlPlaneNodeName clusterName in
      let cpMachineConfig := machineConfigs config !! cpName in
      let cpTemplateConfig :=
        NewDefaultTinkerbellTemplateConfigCreate cpName versionBundle disk
          (OSImageURL (TinkerbellDatacenterConfig_Spec (datacenterConfig config)))
          tinkerbellBootstrapIp tinkerbellIp osFamily in
      let config :=
        set_templateConfigs
          (<[TinkerbellTemplateConfig_Name cpTemplateConfig := cpTemplateConfig]>
             (templateConfigs config)) config in
      match cpMachineConfig with
      | None => Panicked "nil pointer dereference"
      | Some cpMachineConfig =>
          Returned
            (None,
             set_machineConfigs
               (<[cpName := set_Spec
                              (set_TemplateRef (mkRef cpName TinkerbellTemplateConfigKind))
                              cpMachineConfig]> (machineConfigs config))
               config)
      end
  end.

Definition WithCustomWorkerTemplateConfig
    (tinkerbellBootstrapIp tinkerbellIp disk osFamily : string) : TinkerbellFiller :=
  λ config,
  match GetVersionsBundleForVersion
          (anywherev1.Cluster_KubernetesVersion (clusterConfig config)) with
  | inl err =>
      Returned (Some (fmt_Errorf_v "creating worker node template config: " err), config)
  | inr versionBundle =>
      let workerName := anywherev1.Cluster_Name (clusterConfig config) in
      let workerMachineConfig := machineConfigs config !! workerName in
      let workerTemplateConfig :=
        NewDefaultTinkerbellTemplateConfigCreate workerName versionBundle disk
          (OSImageURL (TinkerbellDatacenterConfig_Spec (datacenterConfig config)))
          tinkerbellBootstrapIp tinkerbellIp osFamily in
      let config :=
        set_templateConfigs
          (<[TinkerbellTemplateConfig_Name workerTemplateConfig := workerTemplateConfig]>
             (templateConfigs config)) config in
      match workerMachineConfig with
      | None => Panicked "nil pointer dereference"
      | Some workerMachineConfig =>
          Returned
            (None,
             set_machineConfigs
               (<[workerName := set_Spec
                                  (set_TemplateRef
                                     (mkRef workerName TinkerbellTemplateConfigKind))
                                  workerMachineConfig]> (machineConfigs config))
               config)
      end
  end.

(** What the image filler does to one action when nothing panics, and the
    actions it cannot be run on. *)
Definition set_image_url (value : string) (action : Action) : Action :=
  if String.eqb (Action_Name action) "stream-image"
  then mkAction (Action_Name action)
         (Some (<["IMG_URL" := value]> (default ∅ (Action_Environment action))))
  else action.

Definition lacks_environment (action : Action) : bool :=
  String.eqb (Action_Name action) "stream-image"
  && bool_decide (Action_Environment action = None).

Definition map_actions (g : Action -> Action) (t : TinkerbellTemplateConfig)
  : TinkerbellTemplateConfig :=
  mkTinkerbellTemplateConfig (TinkerbellTemplateConfig_Name t)
    (mkWorkflow
       ((λ task, mkTask (g <$> Task_Actions task))
        <$> Workflow_Tasks (TinkerbellTemplateConfig_Template t))).

Definition actions_of (t : TinkerbellTemplateConfig) : list Action :=
  Workflow_Tasks (TinkerbellTemplateConfig_Template t) ≫= Task_Actions.

(** The loop of [AutoFillTinkerbellProvider] over the fillers. *)
Fixpoint apply_fillers (fillers : list TinkerbellFiller) (config : TinkerbellConfig)
  : outcome (option error * TinkerbellConfig) :=
  match fillers with
  | [] => Returned (None, config)
  | f :: rest =>
      match f config with
      | Panicked reason => Panicked reason
      | Returned (Some err, config) =>
          Returned (Some (fmt_Errorf_v "failed to apply tinkerbell config filler: " err),
                    config)
      | Returned (None, config) => apply_fillers rest config
      end
  end.

(** The resources in the order they are marshalled: the datacenter config,
    the machine configs, the template configs (each map in the order Go
    happens to pick). *)
Definition resources_of (config : TinkerbellConfig) : list Resource :=
  DatacenterResource (datacenterConfig config)
  :: (MachineResource <$> (map_to_list (machineConfigs config)).*2)
  ++ (TemplateResource <$> (map_to_list (templateConfigs config)).*2).

(** The loop of [AutoFillTinkerbellProvider] over the resources. *)
Fixpoint marshal_all (resources : list Resource) : error + list string :=
  match resources with
  | [] => inr []
  | r :: rest =>
      match yaml_Marshal r with
      | inl err => inl (fmt_Errorf_v "marshalling tinkerbell resource: " err)
      | inr yamlContent =>
          match marshal_all rest with
          | inl err => inl err
          | inr yamlResources => inr (yamlContent :: yamlResources)
          end
      end
  end.

Definition AutoFillTinkerbellProvider (filename : string) (fillers : list TinkerbellFiller)
  : outcome (error + string) :=
  match GetTinkerbellDatacenterConfig filename with
  | inl err =>
      Returned (inl (fmt_Errorf_v
                       "unable to get tinkerbell datacenter config from file: " err))
  | inr tinkerbellDatacenterConfig =>
      match GetTinkerbellMachineConfigs filename with
      | inl err =>
          Returned (inl (fmt_Errorf_v
                           "unable to get tinkerbell machine config from file: " err))
      | inr tinkerbellMachineConfigs =>
          match GetTinkerbellTemplateConfig filename with
          | inl err =>
              Returned (inl (fmt_Errorf_v
                               "unable to get tinkerbell template configs from file: " err))
          | inr tinkerbellTemplateConfigs =>
              match GetClusterConfig filename with
              | inl err =>
                  Returned (inl (fmt_Errorf_v
                                   "unable to get tinkerbell cluster config from file: "
                                   err))
              | inr clusterConfig =>
                  let config :=
                    mkTinkerbellConfig clusterConfig tinkerbellDatacenterConfig
                      tinkerbellMachineConfigs tinkerbellTemplateConfigs in
                  match apply_fillers fillers config with
                  | Panicked reason => Panicked reason
                  | Returned (Some err, _) => Returned (inl err)
                  | Returned (None, config) =>
                      match marshal_all (resources_of config) with
                      | inl err => Returned (inl err)
                      | inr yamlResources =>
                          Returned (inr (templater_AppendYamlResources yamlResources))
                      end
                  end
              end
          end
      end
  end.

End Fillers.

End api.

(** ** Concrete Tinkerbell configs *)

Module sample.

Import tinkerbell v1alpha1 api.

Definition datacenter : TinkerbellDatacenterConfig :=
  mkTinkerbellDatacenterConfig (mkTinkerbellDatacenterConfigSpec "" "").

Definition machine (name : string) (users : list UserConfiguration)
  : TinkerbellMachineConfig :=
  mkTinkerbellMachineConfig "TinkerbellMachineConfig" "anywhere.eks.amazonaws.com/v1alpha1"
    name (mkTinkerbellMachineConfigSpec ∅ (mkRef "" "") "" users).

(** The control plane machine has two users, the worker machine none. *)
Definition machine_configs : gmap string TinkerbellMachineConfig :=
  {[ "w01-cp" := machine "w01-cp"
                   [mkUserConfiguration "root" ["ssh-rsa OLD"; "ssh-rsa OLDER"];
                    mkUserConfiguration "ops" ["ssh-rsa OPS"]];
     "w01" := machine "w01" [] ]}.

Definition template (name : string) (environment : option (gmap string string))
  : TinkerbellTemplateConfig :=
  mkTinkerbellTemplateConfig name
    (mkWorkflow
       [mkTask [mkAction "stream-image" environment;
                mkAction "write-netplan" (Some {[ "DEST_DISK" := "/dev/sda" ]})]]).

Definition templates : gmap string TinkerbellTemplateConfig :=
  {[ "w01" := template "w01" (Some {[ "IMG_URL" := "http://old/image.gz";
                                      "DEST_DISK" := "/dev/sda" ]}) ]}.

(** A template whose [stream-image] action has a nil environment map. *)
Definition templates_nil_environment : gmap string TinkerbellTemplateConfig :=
  {[ "w01" := template "w01" None ]}.

Definition old_cluster : anywherev1.Cluster :=
  anywherev1.mkCluster "w01" "1.18" (anywherev1.mkClusterStatus None).

(** The files: [missing.yaml] cannot be read, [bare.yaml] holds no machine
    config, [old.yaml] a cluster of a Kubernetes version with no bundle.  A
    machine config with no name cannot be marshalled. *)
Definition externals : Externals :=
  mkExternals
    (λ filename, if String.eqb filename "missing.yaml"
                 then inl (errorString "no such file")
                 else inr datacenter)
    (λ filename, if String.eqb filename "bare.yaml"
                 then inr ∅
                 else inr machine_configs)
    (λ _, inr templates)
    (λ filename, if String.eqb filename "old.yaml"
                 then inr old_cluster
                 else inr scenario.cluster)
    (λ r, match r with
          | DatacenterResource _ => inr "kind: TinkerbellDatacenterConfig"
          | MachineResource m =>
              if String.eqb (TinkerbellMachineConfig_Name m) ""
              then inl (errorString "a machine config needs a name")
              else inr ("kind: TinkerbellMachineConfig, name: "
                        +:+ TinkerbellMachineConfig_Name m)
          | TemplateResource t =>
              inr ("kind: TinkerbellTemplateConfig, name: "
                   +:+ TinkerbellTemplateConfig_Name t)
          end)
    (String.concat "---")
    (λ clusterName, clusterName +:+ "-cp")
    (λ clusterName, clusterName +:+ "-etcd")
    "type" "cp" "worker" "etcd"
    "TinkerbellMachineConfig" "TinkerbellTemplateConfig"
    "anywhere.eks.amazonaws.com/v1alpha1"
    string
    (λ kubeVersion, if String.eqb kubeVersion "1.24"
                    then inr "v0.14.2"
                    else inl (errorString "no bundle for this kubernetes version"))
    (λ name _ disk osImageURL _ _ _,
       template name (Some {[ "IMG_URL" := osImageURL; "DEST_DISK" := disk ]})).

Definition config : TinkerbellConfig :=
  mkTinkerbellConfig scenario.cluster datacenter machine_configs templates.

Definition config_nil_environment : TinkerbellConfig :=
  mkTinkerbellConfig scenario.cluster datacenter machine_configs
    templates_nil_environment.

Definition config_bare : TinkerbellConfig :=
  mkTinkerbellConfig scenario.cluster datacenter ∅ templates.

Definition config_old : TinkerbellConfig :=
  mkTinkerbellConfig old_cluster datacenter machine_configs templates.

End sample.

(** ** Proof steps *)

(** Runs a computation of [M] symbolically: the monad and its primitive
    operations are unfolded and the result is simplified. *)
Ltac run_M :=
  repeat progress
    (unfold mbind, M_bind, mret, M_ret, os_Setenv, log_Error, log_Info, emit,
       get_clusterSpec, put_clusterSpec, get_environ, put_environ,
       get_objects, put_objects, record in *;
     cbn in *).

(** Brings [new_events w w'] to the list of events itself, once the trace of
    [w'] is the trace of [w] with events appended. *)
Ltac new_events_norm :=
  unfold new_events; cbn;
  rewrite <- ?app_assoc; rewrite ?drop_app_length; cbn.

(** * Properties *)

(** ** The phase runner *)

Section PhaseRunnerFacts.

Context {St : Type}.

Implicit Types (ps : list (controller.Phase St)) (s : St) (k : nat).

(** The ghost field tells the truth: its [k]-th entry is what the [k]-th
    registered phase returned on the state the pass reached it in. *)
Lemma run_from_invoked last ps s k out :
  controller.invoked (controller.run_from last ps s) !! k = Some out →
  ∃ p, ps !! k = Some p ∧ (p (controller.state_before ps k s)).1 = out.
Proof.
  revert last s k. induction ps as [|p rest IH]; intros last s k; simpl.
  - by rewrite lookup_nil.
  - destruct (p s) as [[r e] s'] eqn:Hp. simpl.
    destruct e as [err|]; [|destruct (controller.Return r)]; simpl.
    + destruct k as [|k]; simpl; [|by rewrite ?lookup_nil].
      intros [= <-]. exists p. split; [done|by rewrite Hp].
    + destruct k as [|k]; simpl; [|by rewrite ?lookup_nil].
      intros [= <-]. exists p. split; [done|by rewrite Hp].
    + destruct k as [|k]; simpl.
      * intros [= <-]. exists p. split; [done|by rewrite Hp].
      * intros Hk. rewrite Hp. simpl. by apply IH in Hk.
Qed.

(** An invoked phase that returned an error is the last one invoked; the
    pass returns the zero Result with that error, in the state that phase
    left, and the phases registered after it have no part in the pass. *)
Lemma run_from_error last ps s k r e :
  controller.invoked (controller.run_from last ps s) !! k = Some (r, Some e) →
  controller.ret (controller.run_from last ps s) = (controller.Result_zero, Some e)
  ∧ length (controller.invoked (controller.run_from last ps s)) = S k
  ∧ controller.final (controller.run_from last ps s) = controller.state_before ps (S k) s
  ∧ ∀ later, controller.run_from last (take (S k) ps ++ later) s
             = controller.run_from last ps s.
Proof.
  revert last s k. induction ps as [|p rest IH]; intros last s k; simpl.
  - by rewrite lookup_nil.
  - destruct (p s) as [[r0 e0] s'] eqn:Hp. simpl.
    destruct e0 as [err|]; [|destruct (controller.Return r0) eqn:Hret]; simpl.
    + destruct k as [|k]; simpl; [|by rewrite ?lookup_nil].
      intros [= -> ->]. by repeat split.
    + destruct k as [|k]; simpl; [done|by rewrite ?lookup_nil].
    + destruct k as [|k]; simpl; [done|].
      intros Hk. destruct (IH r0 s' k Hk) as (Hr & Hl & Hf & Hlater).
      repeat split; [done|by rewrite Hl|done|].
      intros later. by rewrite Hlater.
Qed.

(** C2.  For every registered phase list and every index [k]: if the
    [k]-th phase is invoked and returns a non-nil error, then [Run] returns
    the zero Result together with exactly that error, the [k]-th phase is
    the last one invoked, the pass ends in the state that phase left, and
    the phases registered after it have no part in the pass (whatever they
    are, the pass is the same). *)
Theorem Run_stops_at_first_error (pr : controller.PhaseRunner St) s k r e :
  controller.invoked (controller.Run pr s) !! k = Some (r, Some e) →
  (∃ p, controller.phases pr !! k = Some p
        ∧ (p (controller.state_before (controller.phases pr) k s)).1 = (r, Some e))
  ∧ controller.ret (controller.Run pr s) = (controller.Result_zero, Some e)
  ∧ length (controller.invoked (controller.Run pr s)) = S k
  ∧ controller.final (controller.Run pr s)
    = controller.state_before (controller.phases pr) (S k) s
  ∧ ∀ later,
      controller.Run (controller.mkPhaseRunner (take (S k) (controller.phases pr) ++ later)) s
      = controller.Run pr s.
Proof.
  unfold controller.Run. intros Hk. split.
  - by apply run_from_invoked in Hk.
  - by apply run_from_error in Hk.
Qed.

End PhaseRunnerFacts.

(** ** The phases of the reconciler *)

Section ReconcilerFacts.

Context `{Imports}.

Implicit Types (r : Reconciler) (w : World).

Lemma state_before_S {St} (ps : list (controller.Phase St)) k (s : St) p :
  ps !! k = Some p →
  controller.state_before ps (S k) s = (p (controller.state_before ps k s)).2.
Proof.
  revert ps s. induction k as [|k IH]; intros [|q rest] s; simpl; try done.
  - by intros [= ->].
  - intros Hk. destruct rest as [|q' rest']; [done|]. 
    by rewrite <- (IH (q' :: rest') (q s).2 Hk).
Qed.

(** [SetupEnvVars] leaves the cluster spec alone. *)
Lemma SetupEnvVars_clusterSpec dc cli w :
  clusterSpec (SetupEnvVars dc cli w).2 = clusterSpec w.
Proof.
  unfold SetupEnvVars, VsphereCredentials, call_vsphere_SetupEnvVars. run_M.
  repeat case_match; simplify_eq; run_M; try done.
Qed.

(** *** [ValidateDatacenterConfig] *)

(** Both branches of [ValidateDatacenterConfig] end in
    [return controller.Result{}, nil]: the phase returns the same pair on a
    valid and on an invalid datacenter config. *)
Lemma ValidateDatacenterConfig_returns_zero r w :
  (ValidateDatacenterConfig r w).1 = (controller.Result_zero, None).
Proof. unfold ValidateDatacenterConfig. run_M. by case_match. Qed.

(** C9.  [ValidateDatacenterConfig] never returns a non-nil error, whatever
    the spec; and when the datacenter config is marked invalid and stores no
    failure message, the failure message of the cluster status is set to
    (a pointer to) the empty string: it is not left nil. *)
Theorem ValidateDatacenterConfig_never_fails r w :
  (ValidateDatacenterConfig r w).1.2 = None
  ∧ (anywherev1.VSphereDatacenterConfigStatus_SpecValid (datacenter_status w) = false →
     anywherev1.VSphereDatacenterConfigStatus_FailureMessage (datacenter_status w) = None →
     failureMessage_of (ValidateDatacenterConfig r w).2 = Some ""
     ∧ failureMessage_of (ValidateDatacenterConfig r w).2 ≠ None).
Proof.
  split.
  - by rewrite ValidateDatacenterConfig_returns_zero.
  - unfold ValidateDatacenterConfig, datacenter_status, failureMessage_of. run_M.
    by intros -> ->.
Qed.


(** C1 (what the code does where the claim expects a clean stop).  On a
    spec whose datacenter config is marked invalid,
    [ValidateDatacenterConfig] copies the stored failure message onto the
    cluster status and returns the zero Result with a nil error; that is
    the Result the runner continues on, and the pass goes on to invoke
    [ValidateMachineConfigs] in the state the first phase left. *)
Theorem invalid_datacenter_pass_goes_on r w :
  anywherev1.VSphereDatacenterConfigStatus_SpecValid (datacenter_status w) = false →
  (ValidateDatacenterConfig r w).1 = (controller.Result_zero, None)
  ∧ controller.Return (ValidateDatacenterConfig r w).1.1 = false
  ∧ failureMessage_of (ValidateDatacenterConfig r w).2
    = Some (default "" (anywherev1.VSphereDatacenterConfigStatus_FailureMessage
                          (datacenter_status w)))
  ∧ controller.invoked (controller.Run (Reconcile_runner r) w) !! 1
    = Some (ValidateMachineConfigs r (ValidateDatacenterConfig r w).2).1.
Proof.
  intros Hinvalid.
  pose proof (ValidateDatacenterConfig_returns_zero r w) as Hvdc.
  repeat split.
  - done.
  - by rewrite Hvdc.
  - unfold ValidateDatacenterConfig, datacenter_status, failureMessage_of in *.
    run_M. rewrite Hinvalid. cbn. by case_match.
  - unfold controller.Run, Reconcile_runner.
    cbn [controller.Register controller.phases controller.NewPhaseRunner app
         controller.run_from].
    destruct (ValidateDatacenterConfig r w) as [out w1] eqn:Hp.
    cbn in Hvdc. subst out. cbn.
    destruct (ValidateMachineConfigs r w1) as [[r2 e2] w2]. cbn.
    destruct e2; [done|]. cbn. by destruct (controller.Return r2).
Qed.


(** *** [ValidateMachineConfigs] *)

(** The outcome of [ValidateMachineConfigs], by the outcome of
    [SetupEnvVars] and of the validator. *)
Lemma ValidateMachineConfigs_setup_fails r w err w1 :
  SetupEnvVars (c.VSphereDatacenter (clusterSpec w)) (r_client r)
    (record [EvPhase "validateMachineConfigs"] w) = (Some err, w1) →
  ValidateMachineConfigs r w
  = ((controller.Result_zero, Some err),
     record [EvLogError err "Failed to set up env vars for Govc"] w1).
Proof.
  intros Hsetup. unfold ValidateMachineConfigs. run_M.
  by rewrite Hsetup.
Qed.

Lemma ValidateMachineConfigs_validated r w w1 err spec' :
  SetupEnvVars (c.VSphereDatacenter (clusterSpec w)) (r_client r)
    (record [EvPhase "validateMachineConfigs"] w) = (None, w1) →
  vsphere.ValidateClusterMachineConfigs (validator r)
    (environ (process w1)) (clusterSpec w1) = (err, spec') →
  ValidateMachineConfigs r w
  = match err with
    | Some err =>
        ((controller.Result_zero, Some err),
         mkWorld (c.set_FailureMessage (Some (Error err)) spec')
           (process (record [EvValidateClusterMachineConfigs (environ (process w1))
                               (clusterSpec w1);
                             EvLogError err "Invalid VSphereMachineConfig"] w1)))
    | None =>
        ((controller.Result_zero, None),
         mkWorld spec'
           (process (record [EvValidateClusterMachineConfigs (environ (process w1))
                               (clusterSpec w1)] w1)))
    end.
Proof.
  intros Hsetup Hval. unfold ValidateMachineConfigs, call_ValidateClusterMachineConfigs.
  run_M. rewrite Hsetup. cbn. rewrite Hval. destruct err; cbn; by rewrite <- ?app_assoc.
Qed.

(** C4.  Whenever the live validation call of [ValidateMachineConfigs]
    fails (the phase's call of [SetupEnvVars] went through and left the
    world [w1], and the validator, called there, returned the error [err]),
    the phase records the message of that error as the failure message of
    the cluster status and returns that error with the zero Result; the
    pass that [Reconcile] runs ends there, after two phases, with that
    error and with the status updated. *)
Theorem ValidateMachineConfigs_hard_stop r w0 w1 err spec' :
  let w := (ValidateDatacenterConfig r w0).2 in
  SetupEnvVars (c.VSphereDatacenter (clusterSpec w)) (r_client r)
    (record [EvPhase "validateMachineConfigs"] w) = (None, w1) →
  vsphere.ValidateClusterMachineConfigs (validator r)
    (environ (process w1)) (clusterSpec w1) = (Some err, spec') →
  (ValidateMachineConfigs r w).1 = (controller.Result_zero, Some err)
  ∧ clusterSpec (ValidateMachineConfigs r w).2
    = c.set_FailureMessage (Some (Error err)) spec'
  ∧ failureMessage_of (ValidateMachineConfigs r w).2 = Some (Error err)
  ∧ let pass := controller.Run (Reconcile_runner r) w0 in
    controller.ret pass = (controller.Result_zero, Some err)
    ∧ controller.invoked pass
      = [(controller.Result_zero, None); (controller.Result_zero, Some err)]
    ∧ controller.final pass = (ValidateMachineConfigs r w).2
    ∧ failureMessage_of (controller.final pass) = Some (Error err).
Proof.
  intros w Hsetup Hval.
  pose proof (ValidateMachineConfigs_validated r w w1 (Some err) spec' Hsetup Hval) as Hvmc.
  pose proof (ValidateDatacenterConfig_returns_zero r w0) as Hvdc.
  assert (Hpass : controller.Run (Reconcile_runner r) w0
                  = controller.mkPass (controller.Result_zero, Some err)
                      (ValidateMachineConfigs r w).2
                      [(controller.Result_zero, None); (controller.Result_zero, Some err)]).
  { unfold controller.Run, Reconcile_runner.
    cbn [controller.Register controller.phases controller.NewPhaseRunner app
         controller.run_from].
    subst w. destruct (ValidateDatacenterConfig r w0) as [out wa].
    cbn in Hvdc. subst out. cbn in Hvmc |- *. by rewrite Hvmc. }
  rewrite Hpass. rewrite Hvmc. by repeat split.
Qed.


(** *** [SetupEnvVars], case by case *)

Lemma SetupEnvVars_get_fails dc cli w e :
  client.Get cli credentials_key = inl e →
  SetupEnvVars dc cli w
  = (Some (fmt_Errorf_v "failed getting vsphere credentials secret: " e),
     record [EvGet credentials_key] w).
Proof.
  intros Hget. unfold SetupEnvVars, VsphereCredentials, credentials_key in *.
  run_M. by rewrite Hget.
Qed.

Lemma SetupEnvVars_username_refused dc cli w secret :
  client.Get cli credentials_key = inr secret →
  os.invalid_argument config_EksavSphereUsernameKey (username_of secret) = true →
  SetupEnvVars dc cli w
  = (Some (fmt_Errorf_v ("failed setting env " +:+ config_EksavSphereUsernameKey +:+ ": ")
             (errorString "setenv: invalid argument")),
     record [EvGet credentials_key;
             EvSetenv config_EksavSphereUsernameKey (username_of secret)] w).
Proof.
  intros Hget Hbad.
  unfold SetupEnvVars, VsphereCredentials, credentials_key, username_of, os.Setenv in *.
  run_M. rewrite Hget. cbn. unfold os.Setenv. rewrite Hbad. cbn.
  by rewrite <- ?app_assoc.
Qed.

Lemma SetupEnvVars_password_refused dc cli w secret :
  client.Get cli credentials_key = inr secret →
  os.invalid_argument config_EksavSphereUsernameKey (username_of secret) = false →
  os.invalid_argument config_EksavSpherePasswordKey (password_of secret) = true →
  SetupEnvVars dc cli w
  = (Some (fmt_Errorf_v ("failed setting env " +:+ config_EksavSpherePasswordKey +:+ ": ")
             (errorString "setenv: invalid argument")),
     mkWorld (clusterSpec w)
       (mkProcess
          (<[config_EksavSphereUsernameKey := username_of secret]> (environ (process w)))
          (objects (process w))
          (trace (process w)
           ++ [EvGet credentials_key;
               EvSetenv config_EksavSphereUsernameKey (username_of secret);
               EvSetenv config_EksavSpherePasswordKey (password_of secret)]))).
Proof.
  intros Hget Hu Hbad.
  unfold SetupEnvVars, VsphereCredentials, credentials_key, username_of, password_of,
    os.Setenv in *.
  run_M. rewrite Hget. cbn. unfold os.Setenv. rewrite Hu. cbn. rewrite Hbad. cbn.
  by rewrite <- ?app_assoc.
Qed.

Lemma SetupEnvVars_credentials_set dc cli w secret :
  client.Get cli credentials_key = inr secret →
  os.invalid_argument config_EksavSphereUsernameKey (username_of secret) = false →
  os.invalid_argument config_EksavSpherePasswordKey (password_of secret) = false →
  let env :=
    <[config_EksavSpherePasswordKey := password_of secret]>
      (<[config_EksavSphereUsernameKey := username_of secret]> (environ (process w))) in
  SetupEnvVars dc cli w
  = (fmt_Errorf_v "failed setting env vars: " <$> (vsphere_SetupEnvVars dc env).1,
     mkWorld (clusterSpec w)
       (mkProcess (vsphere_SetupEnvVars dc env).2 (objects (process w))
          (trace (process w)
           ++ [EvGet credentials_key;
               EvSetenv config_EksavSphereUsernameKey (username_of secret);
               EvSetenv config_EksavSpherePasswordKey (password_of secret);
               EvVsphereSetupEnvVars dc]))).
Proof.
  intros Hget Hu Hp env.
  unfold SetupEnvVars, VsphereCredentials, call_vsphere_SetupEnvVars, credentials_key,
    username_of, password_of, os.Setenv in *.
  run_M. rewrite Hget. cbn. unfold os.Setenv. rewrite Hu. cbn. rewrite Hp. cbn.
  subst env. destruct (vsphere_SetupEnvVars _ _) as [[e|] env']; cbn;
    by rewrite <- ?app_assoc.
Qed.


(** Every way [ValidateMachineConfigs] can go, with the value it returns and
    the world it leaves. *)
Lemma ValidateMachineConfigs_cases r w :
  let dc := c.VSphereDatacenter (clusterSpec w) in
  let w0 := record [EvPhase "validateMachineConfigs"] w in
  (∃ err w1, SetupEnvVars dc (r_client r) w0 = (Some err, w1)
     ∧ (∃ evs, trace (process w1) = trace (process w0) ++ EvGet credentials_key :: evs
               ∧ forallb (λ ev, negb (is_validation_call ev)) evs = true
               ∧ phase_entries evs = [])
     ∧ ValidateMachineConfigs r w
       = ((controller.Result_zero, Some err),
          record [EvLogError err "Failed to set up env vars for Govc"] w1))
  ∨ (∃ secret w1 err spec',
       client.Get (r_client r) credentials_key = inr secret
       ∧ os.invalid_argument config_EksavSphereUsernameKey (username_of secret) = false
       ∧ os.invalid_argument config_EksavSpherePasswordKey (password_of secret) = false
       ∧ SetupEnvVars dc (r_client r) w0 = (None, w1)
       ∧ environ (process w1)
         = (vsphere_SetupEnvVars dc
              (<[config_EksavSpherePasswordKey := password_of secret]>
                 (<[config_EksavSphereUsernameKey := username_of secret]>
                    (environ (process w))))).2
       ∧ trace (process w1)
         = trace (process w0)
           ++ [EvGet credentials_key;
               EvSetenv config_EksavSphereUsernameKey (username_of secret);
               EvSetenv config_EksavSpherePasswordKey (password_of secret);
               EvVsphereSetupEnvVars dc]
       ∧ vsphere.ValidateClusterMachineConfigs (validator r)
           (environ (process w1)) (clusterSpec w1) = (err, spec')
       ∧ trace (process (ValidateMachineConfigs r w).2)
         = trace (process w1)
           ++ EvValidateClusterMachineConfigs (environ (process w1)) (clusterSpec w1)
              :: match err with
                 | Some err => [EvLogError err "Invalid VSphereMachineConfig"]
                 | None => []
                 end).
Proof.
  intros dc w0.
  destruct (client.Get (r_client r) credentials_key) as [e|secret] eqn:Hget.
  { left. eexists _, _. split; [by apply SetupEnvVars_get_fails|]. split.
    - eexists; split_and!; reflexivity.
    - apply ValidateMachineConfigs_setup_fails. by apply SetupEnvVars_get_fails. }
  destruct (os.invalid_argument config_EksavSphereUsernameKey (username_of secret)) eqn:Hu.
  { left. eexists _, _. split; [by eapply SetupEnvVars_username_refused|]. split.
    - eexists; split_and!; reflexivity.
    - apply ValidateMachineConfigs_setup_fails. by eapply SetupEnvVars_username_refused. }
  destruct (os.invalid_argument config_EksavSpherePasswordKey (password_of secret)) eqn:Hp.
  { left. eexists _, _. split; [by eapply SetupEnvVars_password_refused|]. split.
    - eexists; split_and!; reflexivity.
    - apply ValidateMachineConfigs_setup_fails. by eapply SetupEnvVars_password_refused. }
  pose proof (SetupEnvVars_credentials_set dc (r_client r) w0 secret Hget Hu Hp) as Hsetup.
  cbn zeta in Hsetup.
  change (environ (process w0)) with (environ (process w)) in Hsetup.
  destruct (vsphere_SetupEnvVars dc _) as [[e|] env'] eqn:Hvs; cbn in Hsetup.
  { left. eexists _, _. split; [exact Hsetup|]. split.
    - eexists; split_and!; reflexivity.
    - by apply ValidateMachineConfigs_setup_fails. }
  right.
  destruct (vsphere.ValidateClusterMachineConfigs (validator r) env' (clusterSpec w))
    as [err spec'] eqn:Hval.
  eexists secret, _, err, spec'. repeat split; try done.
  - by rewrite Hvs.
  - erewrite ValidateMachineConfigs_validated; [|exact Hsetup|exact Hval].
    by destruct err.
Qed.


Lemma new_events_app w w' evs :
  trace (process w') = trace (process w) ++ evs → new_events w w' = evs.
Proof. unfold new_events. intros ->. by rewrite drop_app_length. Qed.

Lemma no_validation_call evs env spec :
  forallb (λ ev, negb (is_validation_call ev)) evs = true →
  EvValidateClusterMachineConfigs env spec ∉ evs.
Proof.
  intros Hall Hin. rewrite forallb_forall in Hall.
  apply list_elem_of_In in Hin. by apply Hall in Hin.
Qed.

(** C8.  [ValidateMachineConfigs] first reads the secret named
    [vsphere.CredentialsObjectName] in the namespace [eksa-system] from the
    reconciler's own (local) client.  If the validation call is made at
    all, then before it the username and the password of that secret were
    set, in this order, under the two keys of [config], and the validator
    sees the environment that [vsphere.SetupEnvVars] made of the result.
    If [SetupEnvVars] fails, the phase returns its error and the validation
    call is not made; and [SetupEnvVars] fails when the secret cannot be
    read, when [os.Setenv] refuses the username or the password, and when
    [vsphere.SetupEnvVars] fails. *)
Theorem ValidateMachineConfigs_credentials_first r w :
  let dc := c.VSphereDatacenter (clusterSpec w) in
  let started := record [EvPhase "validateMachineConfigs"] w in
  let w' := (ValidateMachineConfigs r w).2 in
  (∃ evs, new_events w w'
          = EvPhase "validateMachineConfigs" :: EvGet credentials_key :: evs)
  ∧ (∀ env spec,
       EvValidateClusterMachineConfigs env spec ∈ new_events w w' →
       ∃ secret evs,
         client.Get (r_client r) credentials_key = inr secret
         ∧ new_events w w'
           = [EvPhase "validateMachineConfigs";
              EvGet credentials_key;
              EvSetenv config_EksavSphereUsernameKey (username_of secret);
              EvSetenv config_EksavSpherePasswordKey (password_of secret);
              EvVsphereSetupEnvVars dc;
              EvValidateClusterMachineConfigs env spec] ++ evs
         ∧ env = (vsphere_SetupEnvVars dc
                    (<[config_EksavSpherePasswordKey := password_of secret]>
                       (<[config_EksavSphereUsernameKey := username_of secret]>
                          (environ (process w))))).2)
  ∧ (∀ err w1,
       SetupEnvVars dc (r_client r) started = (Some err, w1) →
       (ValidateMachineConfigs r w).1 = (controller.Result_zero, Some err)
       ∧ ∀ env spec, EvValidateClusterMachineConfigs env spec ∉ new_events w w')
  ∧ (∀ e, client.Get (r_client r) credentials_key = inl e →
          (SetupEnvVars dc (r_client r) started).1
          = Some (fmt_Errorf_v "failed getting vsphere credentials secret: " e))
  ∧ (∀ secret,
       client.Get (r_client r) credentials_key = inr secret →
       os.invalid_argument config_EksavSphereUsernameKey (username_of secret) = true
       ∨ os.invalid_argument config_EksavSpherePasswordKey (password_of secret) = true →
       is_Some (SetupEnvVars dc (r_client r) started).1)
  ∧ (∀ secret e,
       client.Get (r_client r) credentials_key = inr secret →
       os.invalid_argument config_EksavSphereUsernameKey (username_of secret) = false →
       os.invalid_argument config_EksavSpherePasswordKey (password_of secret) = false →
       (vsphere_SetupEnvVars dc
          (<[config_EksavSpherePasswordKey := password_of secret]>
             (<[config_EksavSphereUsernameKey := username_of secret]>
                (environ (process w))))).1 = Some e →
       (SetupEnvVars dc (r_client r) started).1
       = Some (fmt_Errorf_v "failed setting env vars: " e)).
Proof.
  intros dc started w'. subst dc started.
  assert (Hvsphere : ∀ secret e,
       client.Get (r_client r) credentials_key = inr secret →
       os.invalid_argument config_EksavSphereUsernameKey (username_of secret) = false →
       os.invalid_argument config_EksavSpherePasswordKey (password_of secret) = false →
       (vsphere_SetupEnvVars (c.VSphereDatacenter (clusterSpec w))
          (<[config_EksavSpherePasswordKey := password_of secret]>
             (<[config_EksavSphereUsernameKey := username_of secret]>
                (environ (process w))))).1 = Some e →
       (SetupEnvVars (c.VSphereDatacenter (clusterSpec w)) (r_client r)
          (record [EvPhase "validateMachineConfigs"] w)).1
       = Some (fmt_Errorf_v "failed setting env vars: " e)).
  { intros secret e Hget Hu Hp Hvs.
    rewrite (SetupEnvVars_credentials_set _ _ _ secret Hget Hu Hp). cbn.
    by rewrite Hvs. }
  assert (Hcauses :
    (∀ e, client.Get (r_client r) credentials_key = inl e →
          (SetupEnvVars (c.VSphereDatacenter (clusterSpec w)) (r_client r)
             (record [EvPhase "validateMachineConfigs"] w)).1
          = Some (fmt_Errorf_v "failed getting vsphere credentials secret: " e))
    ∧ (∀ secret,
       client.Get (r_client r) credentials_key = inr secret →
       os.invalid_argument config_EksavSphereUsernameKey (username_of secret) = true
       ∨ os.invalid_argument config_EksavSpherePasswordKey (password_of secret) = true →
       is_Some (SetupEnvVars (c.VSphereDatacenter (clusterSpec w)) (r_client r)
                  (record [EvPhase "validateMachineConfigs"] w)).1)).
  { split.
    - intros e Hget. by rewrite (SetupEnvVars_get_fails _ _ _ e Hget).
    - intros secret Hget Hbad.
      destruct (os.invalid_argument config_EksavSphereUsernameKey (username_of secret))
        eqn:Hu.
      + by rewrite (SetupEnvVars_username_refused _ _ _ secret Hget Hu).
      + destruct Hbad as [?|Hp]; [done|].
        by rewrite (SetupEnvVars_password_refused _ _ _ secret Hget Hu Hp). }
  destruct Hcauses as [Hfetch Hsetenv].
  destruct (ValidateMachineConfigs_cases r w)
    as [(err & w1 & Hsetup & (evs & Htr & Hquiet & _) & Hvmc)
       |(secret & w1 & err & spec' & Hget & Hu & Hp & Hsetup & Henv & Htr & Hval & Htr')].
  - assert (Hnew : new_events w w'
                   = EvPhase "validateMachineConfigs" :: EvGet credentials_key
                     :: evs ++ [EvLogError err "Failed to set up env vars for Govc"]).
    { apply new_events_app. subst w'. rewrite Hvmc. cbn. rewrite Htr. cbn.
      by rewrite <- !app_assoc. }
    assert (Hnone : ∀ env spec, EvValidateClusterMachineConfigs env spec ∉ new_events w w').
    { intros env spec. rewrite Hnew. rewrite !not_elem_of_cons, not_elem_of_app.
      repeat split; try done.
      - by apply no_validation_call.
      - by rewrite list_elem_of_singleton. }
    split_and!; try done.
    + by eexists.
    + intros env spec Hin. by apply Hnone in Hin.
    + intros err' w1' Hsetup'. rewrite Hsetup in Hsetup'. simplify_eq.
      split; [|done]. subst w'. by rewrite Hvmc.
  - set (tail := match err with
                 | Some err => [EvLogError err "Invalid VSphereMachineConfig"]
                 | None => []
                 end) in *.
    assert (Hnew : new_events w w'
                   = [EvPhase "validateMachineConfigs";
                      EvGet credentials_key;
                      EvSetenv config_EksavSphereUsernameKey (username_of secret);
                      EvSetenv config_EksavSpherePasswordKey (password_of secret);
                      EvVsphereSetupEnvVars (c.VSphereDatacenter (clusterSpec w));
                      EvValidateClusterMachineConfigs (environ (process w1))
                        (clusterSpec w1)] ++ tail).
    { apply new_events_app. subst w'. rewrite Htr', Htr. cbn.
      by rewrite <- !app_assoc. }
    split_and!; try done.
    + rewrite Hnew. by eexists.
    + intros env spec Hin. exists secret, tail. split; [done|].
      rewrite Hnew in Hin. cbn in Hin.
      rewrite !elem_of_cons in Hin.
      destruct Hin as [?|[?|[?|[?|[?|[Heq|Hin]]]]]]; try done.
      * injection Heq as -> ->. by rewrite Hnew, Henv.
      * subst tail. destruct err; [|by apply elem_of_nil in Hin].
        by apply list_elem_of_singleton in Hin.
    + intros err' w1' Hsetup'. by rewrite Hsetup in Hsetup'.
Qed.


(** C10.  When setting up the credentials fails inside
    [ValidateMachineConfigs] ([SetupEnvVars] returns an error: the secret
    cannot be read, or the environment cannot be set), the phase returns
    that error and leaves the cluster spec, its status and failure message
    included, as it was.  The phase itself writes to the spec only when
    the validator fails: when the validator returns nil, the spec is the
    one the validator left. *)
Theorem ValidateMachineConfigs_setup_failure_frame r w :
  let dc := c.VSphereDatacenter (clusterSpec w) in
  let started := record [EvPhase "validateMachineConfigs"] w in
  (∀ err w1,
     SetupEnvVars dc (r_client r) started = (Some err, w1) →
     (ValidateMachineConfigs r w).1 = (controller.Result_zero, Some err)
     ∧ clusterSpec (ValidateMachineConfigs r w).2 = clusterSpec w)
  ∧ (∀ e,
       client.Get (r_client r) credentials_key = inl e →
       (ValidateMachineConfigs r w).1
       = (controller.Result_zero,
          Some (fmt_Errorf_v "failed getting vsphere credentials secret: " e))
       ∧ clusterSpec (ValidateMachineConfigs r w).2 = clusterSpec w)
  ∧ (∀ secret,
       client.Get (r_client r) credentials_key = inr secret →
       os.invalid_argument config_EksavSphereUsernameKey (username_of secret) = true
       ∨ os.invalid_argument config_EksavSpherePasswordKey (password_of secret) = true →
       is_Some (ValidateMachineConfigs r w).1.2
       ∧ clusterSpec (ValidateMachineConfigs r w).2 = clusterSpec w)
  ∧ (∀ w1 spec',
       SetupEnvVars dc (r_client r) started = (None, w1) →
       vsphere.ValidateClusterMachineConfigs (validator r)
         (environ (process w1)) (clusterSpec w1) = (None, spec') →
       clusterSpec (ValidateMachineConfigs r w).2 = spec').
Proof.
  intros dc started. subst dc started.
  assert (Hframe : ∀ err w1,
     SetupEnvVars (c.VSphereDatacenter (clusterSpec w)) (r_client r)
       (record [EvPhase "validateMachineConfigs"] w) = (Some err, w1) →
     (ValidateMachineConfigs r w).1 = (controller.Result_zero, Some err)
     ∧ clusterSpec (ValidateMachineConfigs r w).2 = clusterSpec w).
  { intros err w1 Hsetup.
    rewrite (ValidateMachineConfigs_setup_fails r w err w1 Hsetup). split; [done|].
    pose proof (SetupEnvVars_clusterSpec (c.VSphereDatacenter (clusterSpec w))
                  (r_client r) (record [EvPhase "validateMachineConfigs"] w)) as Hspec.
    rewrite Hsetup in Hspec. exact Hspec. }
  split_and!.
  - exact Hframe.
  - intros e Hget. eapply Hframe. by apply SetupEnvVars_get_fails.
  - intros secret Hget Hbad.
    destruct (os.invalid_argument config_EksavSphereUsernameKey (username_of secret))
      eqn:Hu.
    + edestruct Hframe as [-> ->]; [by eapply SetupEnvVars_username_refused|done].
    + destruct Hbad as [?|Hp]; [done|].
      edestruct Hframe as [-> ->]; [by eapply SetupEnvVars_password_refused|done].
  - intros w1 spec' Hsetup Hval.
    by rewrite (ValidateMachineConfigs_validated r w w1 None spec' Hsetup Hval).
Qed.

(** *** [ReconcileCNI] *)

Lemma ReconcileCNI_unreachable r w err :
  RemoteClientRegistry_GetClient (remoteClientRegistry r)
    (controller_CapiClusterObjectKey (c.Cluster (clusterSpec w))) = inl err →
  ReconcileCNI r w
  = ((controller.Result_zero, Some err),
     record [EvPhase "reconcileCNI";
             EvGetClient (controller_CapiClusterObjectKey (c.Cluster (clusterSpec w)))] w).
Proof.
  intros Hget. unfold ReconcileCNI. run_M. rewrite Hget. by rewrite <- app_assoc.
Qed.

(** C3.  In [ReconcileCNI]: when the registry fails to resolve a client
    for the workload cluster, the phase returns that very error with the
    zero Result, and all it leaves behind is the trace of its entry and of
    the resolution attempt; when the registry resolves a client, the phase
    returns what the CNI reconciler returns, called with that client and
    the spec.  In the pass that [Reconcile] runs, when the pass reaches the
    CNI phase in the world [w] and the resolution fails there, the pass
    returns that error, the CNI phase is the fourth and last phase
    invoked, and the pass ends in [w] with the two events added: the
    cluster spec (its status included) and the object store are those of
    [w], the workers phase was not invoked. *)
Theorem ReconcileCNI_resolves_then_delegates r w :
  let key := controller_CapiClusterObjectKey (c.Cluster (clusterSpec w)) in
  (∀ err,
     RemoteClientRegistry_GetClient (remoteClientRegistry r) key = inl err →
     ReconcileCNI r w
     = ((controller.Result_zero, Some err),
        record [EvPhase "reconcileCNI"; EvGetClient key] w))
  ∧ (∀ remote,
       RemoteClientRegistry_GetClient (remoteClientRegistry r) key = inr remote →
       (ReconcileCNI r w).1
       = (CNIReconciler_Reconcile (cniReconciler r) remote (clusterSpec w)).1
       ∧ clusterSpec (ReconcileCNI r w).2
         = (CNIReconciler_Reconcile (cniReconciler r) remote (clusterSpec w)).2
       ∧ new_events w (ReconcileCNI r w).2
         = [EvPhase "reconcileCNI"; EvGetClient key;
            EvCNIReconcile remote (clusterSpec w)])
  ∧ (∀ w0 err,
       w = controller.state_before (controller.phases (Reconcile_runner r)) 3 w0 →
       (3 < length (controller.invoked (controller.Run (Reconcile_runner r) w0)))%nat →
       RemoteClientRegistry_GetClient (remoteClientRegistry r) key = inl err →
       let pass := controller.Run (Reconcile_runner r) w0 in
       controller.ret pass = (controller.Result_zero, Some err)
       ∧ length (controller.invoked pass) = 4
       ∧ controller.final pass = record [EvPhase "reconcileCNI"; EvGetClient key] w
       ∧ clusterSpec (controller.final pass) = clusterSpec w
       ∧ objects (process (controller.final pass)) = objects (process w)).
Proof.
  intros key. subst key. split_and!.
  - intros err. apply ReconcileCNI_unreachable.
  - intros remote Hget. unfold ReconcileCNI, call_CNIReconciler_Reconcile.
    run_M. rewrite Hget. cbn.
    destruct (CNIReconciler_Reconcile _ _ _) as [res spec']. cbn.
    split_and!; try done. new_events_norm. done.
  - intros w0 err Hw Hreached Hget pass.
    destruct (lookup_lt_is_Some_2 _ _ Hreached) as [out Hout].
    destruct (run_from_invoked _ _ _ _ _ Hout) as (p & Hp & Hrun).
    injection Hp as <-. rewrite <- Hw in Hrun.
    rewrite (ReconcileCNI_unreachable r w err Hget) in Hrun. cbn in Hrun. subst out.
    destruct (run_from_error _ _ _ _ _ _ Hout) as (Hret & Hlen & Hfinal & _).
    assert (Hfin : controller.final pass
                   = record [EvPhase "reconcileCNI";
                             EvGetClient (controller_CapiClusterObjectKey
                                            (c.Cluster (clusterSpec w)))] w).
    { subst pass. unfold controller.Run. rewrite Hfinal.
      rewrite (state_before_S _ 3 w0 (ReconcileCNI r)) by done.
      rewrite <- Hw. by rewrite (ReconcileCNI_unreachable r w err Hget). }
    split_and!; try done. all: by rewrite Hfin.
Qed.


(** *** The order of the phases *)

Lemma emit_all_record evs w : emit_all evs w = ((), record evs w).
Proof.
  revert w. induction evs as [|ev evs IH]; intros w; cbn.
  - unfold record. rewrite app_nil_r. by destruct w as [? []].
  - run_M. rewrite IH. unfold record. cbn. by rewrite <- app_assoc.
Qed.

Lemma phase_entries_app evs1 evs2 :
  phase_entries (evs1 ++ evs2) = phase_entries evs1 ++ phase_entries evs2.
Proof. apply omap_app. Qed.

Lemma phase_entries_EvApply outs : phase_entries (EvApply <$> outs) = [].
Proof. by induction outs. Qed.

Lemma ValidateDatacenterConfig_enters r :
  enters "validateDatacenterConfig" (ValidateDatacenterConfig r).
Proof.
  intros w. unfold ValidateDatacenterConfig. run_M.
  case_match; cbn; rewrite <- ?app_assoc; by eexists.
Qed.

Lemma ValidateMachineConfigs_enters r :
  enters "validateMachineConfigs" (ValidateMachineConfigs r).
Proof.
  intros w.
  destruct (ValidateMachineConfigs_cases r w)
    as [(err & w1 & Hsetup & (evs & Htr & _ & Hquiet) & Hvmc)
       |(secret & w1 & err & spec' & _ & _ & _ & _ & _ & Htr & _ & Htr')].
  - rewrite Hvmc. cbn. rewrite Htr. cbn. rewrite <- !app_assoc. cbn.
    eexists. split; [done|]. cbn. rewrite phase_entries_app, Hquiet. done.
  - rewrite Htr', Htr. cbn. rewrite <- !app_assoc. cbn.
    eexists. split; [done|]. by destruct err.
Qed.

Lemma ReconcileControlPlane_enters r :
  enters "reconcileControlPlane" (ReconcileControlPlane r).
Proof.
  intros w. unfold ReconcileControlPlane. run_M. rewrite <- ?app_assoc. by eexists.
Qed.

Lemma ReconcileCNI_enters r : enters "reconcileCNI" (ReconcileCNI r).
Proof.
  intros w. unfold ReconcileCNI, call_CNIReconciler_Reconcile. run_M.
  repeat case_match; simplify_eq; cbn; rewrite <- ?app_assoc; by eexists.
Qed.

Lemma ReconcileWorkers_enters r : enters "reconcileWorkers" (ReconcileWorkers r).
Proof.
  intros w. unfold ReconcileWorkers, Apply. run_M.
  destruct (vsphere_WorkersSpec _ _) as [err|workers]; cbn;
    rewrite ?emit_all_record; run_M; rewrite <- ?app_assoc; cbn;
    (eexists; split; [done|]); cbn; by rewrite ?phase_entries_EvApply.
Qed.

(** When every registered phase announces itself under its name, the
    entries a pass leaves in the trace are the names of the phases it
    invoked, in registration order. *)
Lemma run_from_entries (named : list (string * controller.Phase World)) :
  Forall (λ np, enters np.1 np.2) named →
  ∀ last w,
    let pass := controller.run_from last (named.*2) w in
    ∃ evs, trace (process (controller.final pass)) = trace (process w) ++ evs
           ∧ phase_entries evs = take (length (controller.invoked pass)) (named.*1).
Proof.
  induction 1 as [|[n p] named Hp Hnamed IH]; intros last w; cbn.
  - exists []. by rewrite app_nil_r.
  - destruct (Hp w) as (evs & Htr & Hquiet). cbn in Htr.
    destruct (p w) as [[res e] w1]. cbn in Htr |- *.
    destruct e as [err|]; [|destruct (controller.Return res)]; cbn.
    + exists (EvPhase n :: evs). split; [done|]. cbn.
      fold (phase_entries evs). by rewrite Hquiet, take_0.
    + exists (EvPhase n :: evs). split; [done|]. cbn.
      fold (phase_entries evs). by rewrite Hquiet, take_0.
    + destruct (IH res w1) as (evs' & Htr' & Hentries').
      exists ((EvPhase n :: evs) ++ evs'). split.
      * by rewrite Htr', Htr, <- app_assoc.
      * rewrite phase_entries_app. cbn.
        fold (phase_entries evs). by rewrite Hquiet, Hentries'.
Qed.

(** C7.  [Reconcile] registers exactly five phases, in the order validate
    datacenter config, validate machine configs, reconcile control plane,
    reconcile CNI, reconcile workers.  If building the spec fails, it
    returns the zero Result with that error and the process is left as it
    was (no phase ran).  If building the spec succeeds, it returns what
    the runner returns for these phases on the spec built, and the phases
    the pass entered are, in the order of their entry, the first ones of
    the registration order, as many as were invoked. *)
Theorem Reconcile_builds_then_runs_five_phases r cluster p :
  controller.phases (Reconcile_runner r)
  = [ ValidateDatacenterConfig r : controller.Phase World;
      ValidateMachineConfigs r : controller.Phase World;
      ReconcileControlPlane r : controller.Phase World;
      ReconcileCNI r : controller.Phase World;
      ReconcileWorkers r : controller.Phase World ]
  ∧ (∀ err,
       c_BuildSpec (r_client r) cluster = inl err →
       Reconcile r cluster p = ((controller.Result_zero, Some err), p))
  ∧ (∀ spec,
       c_BuildSpec (r_client r) cluster = inr spec →
       let pass := controller.Run (Reconcile_runner r) (mkWorld spec p) in
       Reconcile r cluster p = (controller.ret pass, process (controller.final pass))
       ∧ (length (controller.invoked pass) ≤ 5)%nat
       ∧ phase_entries (new_events (mkWorld spec p) (controller.final pass))
         = take (length (controller.invoked pass)) phase_names).
Proof.
  split_and!.
  - done.
  - intros err Hbuild. unfold Reconcile. by rewrite Hbuild.
  - intros spec Hbuild pass. split_and!.
    + unfold Reconcile. by rewrite Hbuild.
    + subst pass. unfold controller.Run, Reconcile_runner. cbn.
      repeat (case_match; cbn; try lia).
    + pose proof (run_from_entries
        [ ("validateDatacenterConfig", ValidateDatacenterConfig r : controller.Phase World);
          ("validateMachineConfigs", ValidateMachineConfigs r : controller.Phase World);
          ("reconcileControlPlane", ReconcileControlPlane r : controller.Phase World);
          ("reconcileCNI", ReconcileCNI r : controller.Phase World);
          ("reconcileWorkers", ReconcileWorkers r : controller.Phase World) ]) as Hrun.
      destruct (Hrun ltac:(repeat constructor; cbn;
                   auto using ValidateDatacenterConfig_enters,
                     ValidateMachineConfigs_enters, ReconcileControlPlane_enters,
                     ReconcileCNI_enters, ReconcileWorkers_enters)
                  controller.Result_zero (mkWorld spec p))
        as (evs & Htr & Hentries).
      pose proof (new_events_app (mkWorld spec p) (controller.final pass) evs Htr)
        as Hnew.
      rewrite Hnew. exact Hentries.
Qed.

End ReconcilerFacts.

(** ** The desired-state applier *)

Section ApplierFacts.

Import kubernetes serverside.

Implicit Types (a : ObjectApplier) (o : Object) (objs : list Object)
  (st : gmap string (gmap string string)).

Lemma reconcileObject_object a o st : object (reconcileObject a o st).1 = o.
Proof. unfold reconcileObject. repeat case_match; by cbn. Qed.

Lemma reconcileObject_failure a o st :
  failure (reconcileObject a o st).1 = refuses a o.
Proof. unfold reconcileObject, failure. repeat case_match; by simplify_eq/=. Qed.

Lemma reconcileObject_refused a o st e :
  refuses a o = Some e → reconcileObject a o st = (mkApplyOutcome o (Failed e), st).
Proof. unfold reconcileObject. by intros ->. Qed.

Lemma reconcileObjects_objects a objs st :
  object <$> (reconcileObjects a objs st).1 = objs.
Proof.
  revert st. induction objs as [|o objs IH]; intros st; cbn; [done|].
  pose proof (reconcileObject_object a o st) as Ho.
  destruct (reconcileObject a o st) as [out st'].
  specialize (IH st'). destruct (reconcileObjects a objs st') as [outs st''].
  cbn in *. by rewrite Ho, IH.
Qed.

Lemma reconcileObjects_failures a objs st :
  omap failure (reconcileObjects a objs st).1 = omap (refuses a) objs.
Proof.
  revert st. induction objs as [|o objs IH]; intros st; cbn; [done|].
  pose proof (reconcileObject_failure a o st) as Ho.
  destruct (reconcileObject a o st) as [out st'].
  specialize (IH st'). destruct (reconcileObjects a objs st') as [outs st''].
  cbn in *. by rewrite Ho, IH.
Qed.

Lemma reconcileObjects_refused a objs st o e :
  o ∈ objs → refuses a o = Some e →
  mkApplyOutcome o (Failed e) ∈ (reconcileObjects a objs st).1.
Proof.
  intros Hin Hrefused. revert st.
  induction objs as [|o' objs IH]; intros st; [by apply elem_of_nil in Hin|].
  cbn. destruct (reconcileObject a o' st) as [out st'] eqn:Hout.
  destruct (reconcileObjects a objs st') as [outs st''] eqn:Houts.
  cbn. apply elem_of_cons in Hin as [->|Hin].
  - rewrite (reconcileObject_refused _ _ _ _ Hrefused) in Hout.
    injection Hout as <- <-. apply elem_of_cons. by left.
  - apply elem_of_cons. right. specialize (IH Hin st'). by rewrite Houts in IH.
Qed.

Lemma aggregate_None errs : aggregate errs = None ↔ errs = [].
Proof. by destruct errs. Qed.

Lemma omap_refuses_nil a objs :
  omap (refuses a) objs = [] ↔ ∀ o, o ∈ objs → refuses a o = None.
Proof.
  induction objs as [|o objs IH]; cbn.
  - split; [|done]. intros _ o Hin. by apply elem_of_nil in Hin.
  - destruct (refuses a o) as [e|] eqn:Ho.
    + split; [done|]. intros Hall. specialize (Hall o). rewrite Ho in Hall.
      discriminate Hall. apply elem_of_cons. by left.
    + rewrite IH. split.
      * intros Hall o' [->|Hin]%elem_of_cons; [done|by apply Hall].
      * intros Hall o' Hin. apply Hall, elem_of_cons. by right.
Qed.

Lemma elem_of_omap_refuses a objs o e :
  o ∈ objs → refuses a o = Some e → e ∈ omap (refuses a) objs.
Proof. intros Hin Ho. apply list_elem_of_omap. by exists o. Qed.

(** C5.  For every desired object set the producer computes, [Apply]
    attempts every object of the set, once and in order, whatever the
    store answers to the others.  The error it returns is nil exactly when
    the store served every request; otherwise it is one aggregate that
    holds the error of each refused request, and each refused object has
    its failed outcome in the report.  In particular, for the objects
    [A], [B], [C] with [B] refused, [C] is still attempted and the error
    returned holds the error of [B]. *)
Theorem Apply_attempts_every_object a (generateObjects : unit → error + list Object)
    st objs :
  generateObjects () = inr objs →
  let applied := Apply a generateObjects st in
  object <$> outcomes applied = objs
  ∧ err applied = aggregate (omap (refuses a) objs)
  ∧ (err applied = None ↔ ∀ o, o ∈ objs → refuses a o = None)
  ∧ (∀ o e, o ∈ objs → refuses a o = Some e →
       mkApplyOutcome o (Failed e) ∈ outcomes applied
       ∧ ∃ errs, err applied = Some (Aggregate errs) ∧ e ∈ errs)
  ∧ (∀ A B C e, objs = [A; B; C] → refuses a B = Some e →
       ∃ outA outC errs,
         outcomes applied = [outA; mkApplyOutcome B (Failed e); outC]
         ∧ object outC = C
         ∧ err applied = Some (Aggregate errs) ∧ e ∈ errs).
Proof.
  intros Hgen applied.
  assert (Houts : outcomes applied = (reconcileObjects a objs st).1
                  ∧ err applied = aggregate (omap failure (reconcileObjects a objs st).1)).
  { subst applied. unfold Apply. rewrite Hgen.
    by destruct (reconcileObjects a objs st). }
  destruct Houts as [Houts Herr].
  rewrite reconcileObjects_failures in Herr.
  assert (Hrefused : ∀ o e, o ∈ objs → refuses a o = Some e →
            mkApplyOutcome o (Failed e) ∈ outcomes applied
            ∧ ∃ errs, err applied = Some (Aggregate errs) ∧ e ∈ errs).
  { intros o e Hin Ho. split.
    - rewrite Houts. by apply reconcileObjects_refused.
    - pose proof (elem_of_omap_refuses a objs o e Hin Ho) as He.
      rewrite Herr. destruct (omap (refuses a) objs) as [|e' errs] eqn:Herrs.
      + by apply elem_of_nil in He.
      + by eexists. }
  split_and!.
  - rewrite Houts. apply reconcileObjects_objects.
  - done.
  - by rewrite Herr, aggregate_None, omap_refuses_nil.
  - done.
  - intros A B C e -> HB.
    assert (HinB : B ∈ [A; B; C]) by (rewrite !elem_of_cons; auto).
    pose proof (Hrefused B e HinB HB) as [_ (errs & Herrs & He)].
    pose proof (reconcileObjects_objects a [A; B; C] st) as Hobjs.
    rewrite <- Houts in Hobjs.
    assert (HoutB : ∀ st', reconcileObject a B st' = (mkApplyOutcome B (Failed e), st'))
      by (intros st'; by apply reconcileObject_refused).
    rewrite Houts in *. cbn in *.
    destruct (reconcileObject a A st) as [outA st1]. rewrite HoutB in *.
    destruct (reconcileObject a C st1) as [outC st2] eqn:HC. cbn in *.
    exists outA, outC, errs. split_and!; try done. by injection Hobjs.
Qed.


(** *** Applying twice *)















End ApplierFacts.

(** ** The properties at work on concrete collaborators *)

Section Evaluations.

#[local] Existing Instance scenario.imports.

(** The all-green pass: a valid datacenter config, machine configs that
    pass validation, a reachable workload cluster and a store that serves
    every request.  All five phases run, in order, and the pass returns the
    continue Result with a nil error. *)
Example green_pass :
  let pass := controller.Run (Reconcile_runner scenario.green)
                (scenario.start scenario.datacenter_valid) in
  controller.ret pass = (controller.Continue, None)
  ∧ length (controller.invoked pass) = 5
  ∧ phase_entries (trace (process (controller.final pass))) = phase_names
  ∧ failureMessage_of (controller.final pass) = None.
Proof. vm_compute. by split_and!. Qed.

(** The same collaborators on a datacenter config marked invalid: the
    failure message is copied onto the cluster status, and then all five
    phases run all the same, down to the writes of the workers phase. *)
Example invalid_datacenter_pass :
  let pass := controller.Run (Reconcile_runner scenario.green)
                (scenario.start scenario.datacenter_invalid) in
  controller.ret pass = (controller.Continue, None)
  ∧ length (controller.invoked pass) = 5
  ∧ phase_entries (trace (process (controller.final pass))) = phase_names
  ∧ failureMessage_of (controller.final pass) = Some "datacenter not found"
  ∧ dom (objects (process (controller.final pass)))
    = {[ "MachineDeployment/md-0"; "KubeadmConfigTemplate/md-0";
         "VSphereMachineTemplate/md-0" ]}.
Proof. vm_compute. by split_and!. Qed.

(** The runner on its own: a stop-clean Result ends the pass with that
    Result and a nil error, and the phase after it does not run. *)
Example stop_clean_pass :
  let pass := controller.Run
                (controller.mkPhaseRunner [scenario.tick; scenario.halt; scenario.boom]) 0 in
  controller.ret pass = (controller.StopClean, None)
  ∧ controller.final pass = 2
  ∧ length (controller.invoked pass) = 2.
Proof. by split_and!. Qed.

(** Two desired objects that ask for two values of one field of one object:
    no state of the store matches both, and every call writes both, one over
    the other.  The law of the unchanged producer is about desired sets that
    do not contradict themselves. *)
Example same_key_twice_is_written_again :
  let generateObjects := λ _ : unit, inr [scenario.A; scenario.A_resized] in
  let first := serverside.Apply scenario.applier_ok generateObjects ∅ in
  let second := serverside.Apply scenario.applier_ok generateObjects
                  (serverside.store first) in
  serverside.err first = None
  ∧ serverside.writes (serverside.outcomes second) = [scenario.A; scenario.A_resized]
  ∧ serverside.store second = serverside.store first.
Proof. vm_compute. by split_and!. Qed.

(** The store refuses [B] during the first call and serves every request
    during the second: the second call writes [B], the object the first
    could not apply, and neither [A] nor [C]. *)
Example retry_writes_what_failed :
  let generateObjects := λ _ : unit, inr [scenario.A; scenario.B; scenario.C] in
  let first := serverside.Apply scenario.applier_refuses_B generateObjects ∅ in
  let second := serverside.Apply scenario.applier_ok generateObjects
                  (serverside.store first) in
  serverside.writes (serverside.outcomes first) = [scenario.A; scenario.C]
  ∧ serverside.writes (serverside.outcomes second) = [scenario.B].
Proof. vm_compute. by split_and!. Qed.

Lemma invalid_datacenter_pass_goes_on_witness :
  let r := scenario.green in
  let w := scenario.start scenario.datacenter_invalid in
  (ValidateDatacenterConfig r w).1 = (controller.Result_zero, None)
  ∧ controller.Return (ValidateDatacenterConfig r w).1.1 = false
  ∧ failureMessage_of (ValidateDatacenterConfig r w).2
    = Some (default "" (anywherev1.VSphereDatacenterConfigStatus_FailureMessage
                          (datacenter_status w)))
  ∧ controller.invoked (controller.Run (Reconcile_runner r) w) !! 1
    = Some (ValidateMachineConfigs r (ValidateDatacenterConfig r w).2).1.
Proof.
  apply (invalid_datacenter_pass_goes_on scenario.green
           (scenario.start scenario.datacenter_invalid)).
  reflexivity.
Defined.

Lemma Run_stops_at_first_error_witness :
  let pr := controller.mkPhaseRunner [scenario.tick; scenario.boom; scenario.tick] in
  controller.ret (controller.Run pr 0) = (controller.Result_zero, Some (errorString "boom"))
  ∧ length (controller.invoked (controller.Run pr 0)) = 2
  ∧ controller.final (controller.Run pr 0) = 2.
Proof.
  intros pr.
  destruct (Run_stops_at_first_error pr 0 1 controller.Result_zero (errorString "boom"))
    as (_ & Hret & Hlen & Hfinal & _); [reflexivity|].
  split_and!; [exact Hret|exact Hlen|exact Hfinal].
Defined.


(** The workload cluster is unreachable: the pass ends with the registry's
    error after the fourth phase. *)
Lemma ReconcileCNI_resolves_then_delegates_witness :
  let r := scenario.unreachable in
  let w0 := scenario.start scenario.datacenter_valid in
  let w := controller.state_before (controller.phases (Reconcile_runner r)) 3 w0 in
  let pass := controller.Run (Reconcile_runner r) w0 in
  controller.ret pass
  = (controller.Result_zero, Some (errorString "workload cluster unreachable"))
  ∧ length (controller.invoked pass) = 4
  ∧ controller.final pass
    = record [EvPhase "reconcileCNI";
              EvGetClient (controller_CapiClusterObjectKey (c.Cluster (clusterSpec w)))] w
  ∧ clusterSpec (controller.final pass) = clusterSpec w
  ∧ objects (process (controller.final pass)) = objects (process w).
Proof.
  intros r w0 w pass.
  apply (proj2 (proj2 (ReconcileCNI_resolves_then_delegates r w)) w0
           (errorString "workload cluster unreachable")).
  - reflexivity.
  - vm_compute. lia.
  - reflexivity.
Defined.

(** The validator rejects the machine configs. *)
Lemma ValidateMachineConfigs_hard_stop_witness :
  let r := scenario.bad_machines in
  let w0 := scenario.start scenario.datacenter_valid in
  let w := (ValidateDatacenterConfig r w0).2 in
  let pass := controller.Run (Reconcile_runner r) w0 in
  (ValidateMachineConfigs r w).1
  = (controller.Result_zero, Some (errorString "template not found"))
  ∧ failureMessage_of (ValidateMachineConfigs r w).2 = Some "template not found"
  ∧ controller.ret pass = (controller.Result_zero, Some (errorString "template not found"))
  ∧ controller.invoked pass
    = [(controller.Result_zero, None);
       (controller.Result_zero, Some (errorString "template not found"))]
  ∧ failureMessage_of (controller.final pass) = Some "template not found".
Proof.
  intros r w0 w pass.
  destruct (ValidateMachineConfigs_hard_stop r w0
              (SetupEnvVars (c.VSphereDatacenter (clusterSpec w)) (r_client r)
                 (record [EvPhase "validateMachineConfigs"] w)).2
              (errorString "template not found") (clusterSpec w))
    as (Hret & _ & Hmsg & Hpass & Hinvoked & _ & Hfinal).
  - vm_compute. reflexivity.
  - vm_compute. reflexivity.
  - split_and!; [exact Hret|exact Hmsg|exact Hpass|exact Hinvoked|exact Hfinal].
Defined.

(** The desired objects [A], [B], [C] on a store that refuses [B]. *)
Lemma Apply_attempts_every_object_witness :
  let applied := serverside.Apply scenario.applier_refuses_B
                   (λ _, inr [scenario.A; scenario.B; scenario.C]) ∅ in
  serverside.object <$> serverside.outcomes applied = [scenario.A; scenario.B; scenario.C]
  ∧ ∃ outA outC errs,
      serverside.outcomes applied
      = [outA;
         serverside.mkApplyOutcome scenario.B
           (serverside.Failed (errorString "admission webhook denied the request"));
         outC]
      ∧ serverside.object outC = scenario.C
      ∧ serverside.err applied = Some (Aggregate errs)
      ∧ errorString "admission webhook denied the request" ∈ errs.
Proof.
  intros applied.
  destruct (Apply_attempts_every_object scenario.applier_refuses_B
              (λ _, inr [scenario.A; scenario.B; scenario.C]) ∅
              [scenario.A; scenario.B; scenario.C] eq_refl)
    as (Hall & _ & _ & _ & HABC).
  split; [exact Hall|].
  apply (HABC scenario.A scenario.B scenario.C
           (errorString "admission webhook denied the request")); reflexivity.
Defined.


(** A cluster with no name: the spec cannot be built and nothing runs.  The
    named cluster: the pass of the five phases. *)
Lemma Reconcile_builds_then_runs_five_phases_witness :
  Reconcile scenario.green scenario.unnamed_cluster scenario.idle
  = ((controller.Result_zero, Some (errorString "cluster has no name")), scenario.idle)
  ∧ let pass := controller.Run (Reconcile_runner scenario.green)
                  (mkWorld (scenario.spec_of scenario.datacenter_valid) scenario.idle) in
    Reconcile scenario.green scenario.cluster scenario.idle
    = (controller.ret pass, process (controller.final pass))
    ∧ (length (controller.invoked pass) ≤ 5)%nat
    ∧ phase_entries (new_events
                       (mkWorld (scenario.spec_of scenario.datacenter_valid) scenario.idle)
                       (controller.final pass))
      = take (length (controller.invoked pass)) phase_names.
Proof.
  split.
  - apply (proj1 (proj2 (Reconcile_builds_then_runs_five_phases
                           scenario.green scenario.unnamed_cluster scenario.idle))).
    reflexivity.
  - apply (proj2 (proj2 (Reconcile_builds_then_runs_five_phases
                           scenario.green scenario.cluster scenario.idle))).
    reflexivity.
Defined.

(** The local store has no credentials secret: the phase fails before the
    validator is called. *)
Lemma ValidateMachineConfigs_credentials_first_witness :
  let r := scenario.no_credentials in
  let w := scenario.start scenario.datacenter_valid in
  (ValidateMachineConfigs r w).1
  = (controller.Result_zero,
     Some (errorString "failed getting vsphere credentials secret: secrets not found"))
  ∧ ∀ env spec,
      EvValidateClusterMachineConfigs env spec
      ∉ new_events w (ValidateMachineConfigs r w).2.
Proof.
  intros r w.
  apply (proj1 (proj2 (proj2 (ValidateMachineConfigs_credentials_first r w)))
           (errorString "failed getting vsphere credentials secret: secrets not found")
           (record [EvGet credentials_key] (record [EvPhase "validateMachineConfigs"] w))).
  vm_compute. reflexivity.
Defined.

(** An invalid datacenter config with no failure message. *)
Lemma ValidateDatacenterConfig_never_fails_witness :
  let w := scenario.start scenario.datacenter_invalid_no_message in
  failureMessage_of (ValidateDatacenterConfig scenario.green w).2 = Some ""
  ∧ failureMessage_of (ValidateDatacenterConfig scenario.green w).2 ≠ None.
Proof.
  intros w.
  apply (proj2 (ValidateDatacenterConfig_never_fails scenario.green w)); reflexivity.
Defined.

(** The local store has no credentials secret: the spec is left alone. *)
Lemma ValidateMachineConfigs_setup_failure_frame_witness :
  let r := scenario.no_credentials in
  let w := scenario.start scenario.datacenter_valid in
  (ValidateMachineConfigs r w).1
  = (controller.Result_zero,
     Some (fmt_Errorf_v "failed getting vsphere credentials secret: "
             (errorString "secrets not found")))
  ∧ clusterSpec (ValidateMachineConfigs r w).2 = clusterSpec w.
Proof.
  intros r w.
  apply (proj1 (proj2 (ValidateMachineConfigs_setup_failure_frame r w))
           (errorString "secrets not found")).
  reflexivity.
Defined.

End Evaluations.

(** * Further properties of the code *)

(** ** Package reconciler *)

Section ReconcilerMore.

Context `{Imports}.

Implicit Types (r : Reconciler) (w : World).

(** X1.  [SetupEnvVars] does not undo what it has set: when [os.Setenv]
    refuses the password, an error is returned and the username stays in
    the process environment, which is otherwise as before. *)
Theorem SetupEnvVars_keeps_username_when_password_is_refused dc cli w secret :
  client.Get cli credentials_key = inr secret →
  os.invalid_argument config_EksavSphereUsernameKey (username_of secret) = false →
  os.invalid_argument config_EksavSpherePasswordKey (password_of secret) = true →
  (SetupEnvVars dc cli w).1
  = Some (fmt_Errorf_v ("failed setting env " +:+ config_EksavSpherePasswordKey +:+ ": ")
            (errorString "setenv: invalid argument"))
  ∧ environ (process (SetupEnvVars dc cli w).2)
    = <[config_EksavSphereUsernameKey := username_of secret]> (environ (process w))
  ∧ environ (process (SetupEnvVars dc cli w).2) !! config_EksavSphereUsernameKey
    = Some (username_of secret).
Proof.
  intros Hget Hu Hp.
  rewrite (SetupEnvVars_password_refused dc cli w secret Hget Hu Hp). cbn.
  split_and!; [done|done|]. apply lookup_insert_eq.
Qed.

(** X2.  A secret that lacks the [username] or the [password] field is no
    error for [SetupEnvVars]: the field reads as the empty string and the
    variable is set to it.  The one failure left is that of
    [vsphere.SetupEnvVars], which is handed the environment with the two
    variables set. *)
Theorem SetupEnvVars_reads_missing_fields_as_empty dc cli w secret :
  client.Get cli credentials_key = inr secret →
  os.invalid_argument config_EksavSphereUsernameKey "" = false →
  os.invalid_argument config_EksavSpherePasswordKey "" = false →
  apiv1.Data secret !! "username" = None →
  apiv1.Data secret !! "password" = None →
  let env := <[config_EksavSpherePasswordKey := ""]>
               (<[config_EksavSphereUsernameKey := ""]> (environ (process w))) in
  (SetupEnvVars dc cli w).1
  = fmt_Errorf_v "failed setting env vars: " <$> (vsphere_SetupEnvVars dc env).1
  ∧ environ (process (SetupEnvVars dc cli w).2) = (vsphere_SetupEnvVars dc env).2
  ∧ new_events w (SetupEnvVars dc cli w).2
    = [EvGet credentials_key;
       EvSetenv config_EksavSphereUsernameKey "";
       EvSetenv config_EksavSpherePasswordKey "";
       EvVsphereSetupEnvVars dc].
Proof.
  intros Hget Hu Hp Hnouser Hnopass env.
  assert (Huser : username_of secret = "") by (unfold username_of; by rewrite Hnouser).
  assert (Hpass : password_of secret = "") by (unfold password_of; by rewrite Hnopass).
  rewrite <- Huser in Hu. rewrite <- Hpass in Hp.
  rewrite (SetupEnvVars_credentials_set dc cli w secret Hget Hu Hp). cbn.
  rewrite Huser, Hpass. fold env. split_and!; [done|done|].
  by apply new_events_app.
Qed.

(** X3.  Whatever happens in it, [SetupEnvVars] touches neither the cluster
    spec nor the object store; it starts by reading the credentials secret
    and enters no phase and calls no validator. *)
Theorem SetupEnvVars_touches_only_the_environment dc cli w :
  clusterSpec (SetupEnvVars dc cli w).2 = clusterSpec w
  ∧ objects (process (SetupEnvVars dc cli w).2) = objects (process w)
  ∧ ∃ evs, new_events w (SetupEnvVars dc cli w).2 = EvGet credentials_key :: evs
           ∧ phase_entries evs = []
           ∧ forallb (λ ev, negb (is_validation_call ev)) evs = true.
Proof.
  destruct (client.Get cli credentials_key) as [e|secret] eqn:Hget.
  { rewrite (SetupEnvVars_get_fails dc cli w e Hget). cbn.
    split_and!; [done|done|]. exists []. split_and!; [|done|done].
    by apply new_events_app. }
  destruct (os.invalid_argument config_EksavSphereUsernameKey (username_of secret)) eqn:Hu.
  { rewrite (SetupEnvVars_username_refused dc cli w secret Hget Hu). cbn.
    split_and!; [done|done|]. eexists. split_and!; [by apply new_events_app|done|done]. }
  destruct (os.invalid_argument config_EksavSpherePasswordKey (password_of secret)) eqn:Hp.
  { rewrite (SetupEnvVars_password_refused dc cli w secret Hget Hu Hp). cbn.
    split_and!; [done|done|]. eexists. split_and!; [by apply new_events_app|done|done]. }
  rewrite (SetupEnvVars_credentials_set dc cli w secret Hget Hu Hp). cbn.
  split_and!; [done|done|]. eexists. split_and!; [by apply new_events_app|done|done].
Qed.

(** X4.  [ValidateDatacenterConfig] changes nothing of the world but the
    trace and the failure message of the cluster status, and the message
    only when the datacenter config is marked invalid: on a valid config a
    message left on the status by an earlier pass is not cleared.  Run a
    second time, it leaves the spec as the first run left it. *)
Theorem ValidateDatacenterConfig_touches_only_the_failure_message r w :
  let w' := (ValidateDatacenterConfig r w).2 in
  environ (process w') = environ (process w)
  ∧ objects (process w') = objects (process w)
  ∧ c.VSphereDatacenter (clusterSpec w') = c.VSphereDatacenter (clusterSpec w)
  ∧ c.VSphereMachineConfigs (clusterSpec w') = c.VSphereMachineConfigs (clusterSpec w)
  ∧ anywherev1.Cluster_Name (c.Cluster (clusterSpec w'))
    = anywherev1.Cluster_Name (c.Cluster (clusterSpec w))
  ∧ anywherev1.Cluster_KubernetesVersion (c.Cluster (clusterSpec w'))
    = anywherev1.Cluster_KubernetesVersion (c.Cluster (clusterSpec w))
  ∧ (anywherev1.VSphereDatacenterConfigStatus_SpecValid (datacenter_status w) = true →
     clusterSpec w' = clusterSpec w
     ∧ new_events w w' = [EvPhase "validateDatacenterConfig"])
  ∧ clusterSpec (ValidateDatacenterConfig r w').2 = clusterSpec w'.
Proof.
  unfold ValidateDatacenterConfig, datacenter_status. run_M.
  destruct w as [[cl dc ms] [env objs tr]]. cbn.
  destruct dc as [n srv [valid msg]]. cbn.
  destruct valid; cbn; split_and!; try done.
  intros _. split; [done|]. by new_events_norm.
Qed.

(** X5.  [ValidateMachineConfigs] returns a nil error exactly when
    [SetupEnvVars] went through and the validator, called in the world it
    left, returned nil. *)
Theorem ValidateMachineConfigs_passes_iff r w :
  (ValidateMachineConfigs r w).1.2 = None
  ↔ ∃ w1 spec',
      SetupEnvVars (c.VSphereDatacenter (clusterSpec w)) (r_client r)
        (record [EvPhase "validateMachineConfigs"] w) = (None, w1)
      ∧ vsphere.ValidateClusterMachineConfigs (validator r)
          (environ (process w1)) (clusterSpec w1) = (None, spec').
Proof.
  split.
  - intros Hnil.
    destruct (ValidateMachineConfigs_cases r w)
      as [(err & w1 & Hsetup & _ & Hvmc)
         |(secret & w1 & err & spec' & _ & _ & _ & Hsetup & _ & _ & Hval & _)].
    + by rewrite Hvmc in Hnil.
    + rewrite (ValidateMachineConfigs_validated r w w1 err spec' Hsetup Hval) in Hnil.
      destruct err; [done|]. by exists w1, spec'.
  - intros (w1 & spec' & Hsetup & Hval).
    by rewrite (ValidateMachineConfigs_validated r w w1 None spec' Hsetup Hval).
Qed.

(** X6.  The first three phases never ask the runner to stop: whatever the
    world, the Result they return is the zero Result, with or without an
    error. *)
Theorem first_three_phases_return_the_zero_Result r w :
  (ValidateDatacenterConfig r w).1.1 = controller.Result_zero
  ∧ (ValidateMachineConfigs r w).1.1 = controller.Result_zero
  ∧ (ReconcileControlPlane r w).1.1 = controller.Result_zero.
Proof.
  split_and!.
  - by rewrite ValidateDatacenterConfig_returns_zero.
  - destruct (ValidateMachineConfigs_cases r w)
      as [(err & w1 & Hsetup & _ & Hvmc)
         |(secret & w1 & err & spec' & _ & _ & _ & Hsetup & _ & _ & Hval & _)].
    + by rewrite Hvmc.
    + rewrite (ValidateMachineConfigs_validated r w w1 err spec' Hsetup Hval).
      by destruct err.
  - done.
Qed.

End ReconcilerMore.

(** ** Package e2e *)

Section RunnerFacts.

Import e2e.

Lemma Setenv_ok key value env :
  os.invalid_argument key value = false →
  os.Setenv key value env = (None, <[key := value]> env).
Proof. unfold os.Setenv. by intros ->. Qed.

Lemma Setenv_refused key value env :
  os.invalid_argument key value = true →
  os.Setenv key value env = (Some (errorString "setenv: invalid argument"), env).
Proof. unfold os.Setenv. by intros ->. Qed.

(** X7.  [setEnvironment] returns nil exactly when the two variables
    [TEST_RUNNER_GOVC_USERNAME] and [TEST_RUNNER_GOVC_PASSWORD] are set and
    not empty and neither they nor the runner's URL hold a NUL byte; then
    the four [GOVC_] variables are set and nothing else of the environment
    changes.  Setting [GOVC_INSECURE] never fails, so the last error
    branch of the function is never taken. *)
Theorem setEnvironment_succeeds_iff v env :
  ((setEnvironment v env).1 = None
   ↔ ∃ user pass,
       env !! testRunnerVCUserEnvVar = Some user ∧ user ≠ ""
       ∧ env !! testRunnerVCPasswordEnvVar = Some pass ∧ pass ≠ ""
       ∧ os.has_byte os.NUL user = false
       ∧ os.has_byte os.NUL pass = false
       ∧ os.has_byte os.NUL (Url v) = false)
  ∧ (∀ user pass,
       (setEnvironment v env).1 = None →
       env !! testRunnerVCUserEnvVar = Some user →
       env !! testRunnerVCPasswordEnvVar = Some pass →
       (setEnvironment v env).2
       = <[govcInsecure := strconv_FormatBool (Insecure v)]>
           (<[govcURLKey := Url v]>
              (<[govcPasswordKey := pass]> (<[govcUsernameKey := user]> env))))
  ∧ os.invalid_argument govcInsecure (strconv_FormatBool (Insecure v)) = false.
Proof.
  assert (Hinsecure :
    os.invalid_argument govcInsecure (strconv_FormatBool (Insecure v)) = false)
    by (by destruct (Insecure v)).
  unfold setEnvironment, os_LookupEnv.
  destruct (env !! testRunnerVCUserEnvVar) as [user|] eqn:Huser; cbn;
    [|split_and!; [split; [done|by intros (? & ? & ? & _)]|done|done]].
  destruct (String.length user) eqn:Hlen; cbn.
  { destruct user; [|done].
    split_and!; [split; [done|by intros (? & ? & [= <-] & ? & _)]|done|done]. }
  assert (Hnonempty : user ≠ "") by (by destruct user).
  destruct (os.has_byte os.NUL user) eqn:Hnul_user.
  { rewrite Setenv_refused by done.
    split_and!; [split; [done|]|done|done].
    intros (? & ? & [= <-] & _ & _ & _ & Hu & _). congruence. }
  rewrite Setenv_ok by done.
  rewrite lookup_insert_ne by done.
  destruct (env !! testRunnerVCPasswordEnvVar) as [pass|] eqn:Hpass; cbn;
    [|split_and!; [split; [done|by intros (? & ? & _ & _ & ? & _)]|done|done]].
  destruct (String.length pass) eqn:Hlenp; cbn.
  { destruct pass; [|done].
    split_and!; [split; [done|by intros (? & ? & _ & _ & [= <-] & ? & _)]|done|done]. }
  assert (Hnonemptyp : pass ≠ "") by (by destruct pass).
  destruct (os.has_byte os.NUL pass) eqn:Hnul_pass.
  { rewrite Setenv_refused by done.
    split_and!; [split; [done|]|done|done].
    intros (? & ? & _ & _ & [= <-] & _ & _ & Hp & _). congruence. }
  rewrite Setenv_ok by done.
  destruct (os.has_byte os.NUL (Url v)) eqn:Hnul_url.
  { rewrite Setenv_refused by done.
    split_and!; [split; [done|]|done|done].
    intros (? & ? & _ & _ & _ & _ & _ & _ & Hurl). congruence. }
  rewrite Setenv_ok by done.
  rewrite Setenv_ok by done.
  split_and!; [split; [|done]|by intros ? ? _ [= <-] [= <-]|done].
  intros _. by exists user, pass.
Qed.

(** X8.  When [TEST_RUNNER_GOVC_USERNAME] is not set, or set to the empty
    string, [setEnvironment] reports it missing and leaves the environment
    as it was.  When the username is there and the password is not, the
    password is reported missing and [GOVC_USERNAME] stays set. *)
Theorem setEnvironment_missing_variable v env :
  (env !! testRunnerVCUserEnvVar = None ∨ env !! testRunnerVCUserEnvVar = Some "" →
   setEnvironment v env
   = (Some (errorString "missing environment variable: TEST_RUNNER_GOVC_USERNAME"), env))
  ∧ (∀ user,
       env !! testRunnerVCUserEnvVar = Some user → user ≠ "" →
       os.has_byte os.NUL user = false →
       env !! testRunnerVCPasswordEnvVar = None
       ∨ env !! testRunnerVCPasswordEnvVar = Some "" →
       setEnvironment v env
       = (Some (errorString "missing environment variable: TEST_RUNNER_GOVC_PASSWORD"),
          <[govcUsernameKey := user]> env)).
Proof.
  unfold setEnvironment, os_LookupEnv. split.
  - by intros [->| ->].
  - intros user -> Hne Hnul Hpass.
    destruct user as [|a user]; [done|]. cbn.
    rewrite Setenv_ok by done. rewrite lookup_insert_ne by done.
    by destruct Hpass as [->| ->].
Qed.

Section Teardown.

Context `{Infra}.

(** X9.  [decommInstance] of the vSphere runner makes its three teardown
    calls whatever each of them returns: the infrastructure ends in the
    state the three calls, one after the other, leave.  It returns nil
    exactly when all three returned nil; otherwise it reports the first
    failure in the order deregister, delete activation, delete VMs, under
    one and the same message prefix, and the later failures are not
    reported. *)
Theorem decommInstance_attempts_all (v : VSphereTestRunner) (c : instanceRunConf)
    (cloud : Cloud) :
  let step1 := ssm_DeregisterInstance (session c) (InstanceID v) cloud in
  let step2 := ssm_DeleteActivation (session c) (ActivationId v) step1.2 in
  let step3 := vsphereRmVms (getTestRunnerName (jobId c)) step2.2 in
  (decommInstance v c cloud).2 = step3.2
  ∧ ((decommInstance v c cloud).1 = None
     ↔ step1.1 = None ∧ step2.1 = None ∧ step3.1 = None)
  ∧ (decommInstance v c cloud).1
    = fmt_Errorf_v "failed to decommission vsphere test runner ssm instance: "
      <$> match step1.1, step2.1 with
          | Some e, _ => Some e
          | None, Some e => Some e
          | None, None => step3.1
          end.
Proof.
  cbn zeta. unfold decommInstance.
  destruct (ssm_DeregisterInstance _ _ _) as [e1 cloud1]. cbn.
  destruct (ssm_DeleteActivation _ _ _) as [e2 cloud2]. cbn.
  destruct (vsphereRmVms _ _) as [e3 cloud3]. cbn.
  destruct e1, e2, e3; cbn; split_and!; try done; split; try done; by intros (? & ? & ?).
Qed.

End Teardown.

(** X10.  Runner names tell the jobs apart: two job ids with the same
    runner name are the same job id. *)
Theorem getTestRunnerName_injective jobId1 jobId2 :
  getTestRunnerName jobId1 = getTestRunnerName jobId2 → jobId1 = jobId2.
Proof. unfold getTestRunnerName. intros Heq. by simplify_eq/=. Qed.

End RunnerFacts.

(** ** Package api *)

Section FillerFacts.

Import tinkerbell v1alpha1 api.

Context `{Externals}.

(** *** Loops that may panic *)

Lemma each_Returned {A} (body : A → outcome A) (g : A → A) (xs : list A) :
  (∀ x, x ∈ xs → body x = Returned (g x)) → each body xs = Returned (g <$> xs).
Proof.
  induction xs as [|x xs IH]; intros Hbody; cbn; [done|].
  rewrite Hbody by (apply elem_of_cons; by left).
  rewrite IH; [done|]. intros y Hy. apply Hbody, elem_of_cons. by right.
Qed.

Lemma each_Panicked {A} (body : A → outcome A) (xs : list A) x reason :
  x ∈ xs → body x = Panicked reason → ∃ reason', each body xs = Panicked reason'.
Proof.
  intros Hin Hx. induction xs as [|y xs IH]; [by apply elem_of_nil in Hin|].
  cbn. apply elem_of_cons in Hin as [<-|Hin].
  - rewrite Hx. by eexists.
  - destruct (body y); [|by eexists].
    destruct (IH Hin) as [reason' ->]. by eexists.
Qed.

Lemma each_value_Returned {A} (body : A → outcome A) (g : A → A) (m : gmap string A) :
  (∀ k x, m !! k = Some x → body x = Returned (g x)) →
  each_value body m = Returned (g <$> m).
Proof.
  unfold each_value.
  apply (map_fold_weak_ind
           (λ r m, (∀ k x, m !! k = Some x → body x = Returned (g x)) →
                   r = Returned (g <$> m))).
  - intros _. by rewrite fmap_empty.
  - intros i x m' r Hi IH Hbody.
    rewrite IH.
    + rewrite (Hbody i x) by apply lookup_insert_eq. by rewrite fmap_insert.
    + intros k y Hk. apply (Hbody k). rewrite lookup_insert_ne; [done|].
      intros ->. by rewrite Hi in Hk.
Qed.

Lemma each_value_Panicked {A} (body : A → outcome A) (m : gmap string A) k x reason :
  m !! k = Some x → body x = Panicked reason →
  ∃ reason', each_value body m = Panicked reason'.
Proof.
  unfold each_value. revert k x reason.
  apply (map_fold_weak_ind
           (λ r m, ∀ k x reason, m !! k = Some x → body x = Panicked reason →
                   ∃ reason', r = Panicked reason')).
  - intros k x reason Hk. by rewrite lookup_empty in Hk.
  - intros i x m' r Hi IH k y reason Hk Hy.
    destruct (decide (i = k)) as [->|Hne].
    + rewrite lookup_insert_eq in Hk. injection Hk as ->.
      destruct r; [|by eexists]. rewrite Hy. by eexists.
    + rewrite lookup_insert_ne in Hk by done.
      destruct (IH k y reason Hk Hy) as [reason' ->]. by eexists.
Qed.

(** *** The image filler *)

Lemma stream_image_Returned value action :
  lacks_environment action = false →
  stream_image value action = Returned (set_image_url value action).
Proof.
  unfold lacks_environment, stream_image, set_image_url.
  destruct (String.eqb _ _); [|done]. cbn.
  destruct (Action_Environment action); [done|].
  by rewrite bool_decide_eq_true_2.
Qed.

Lemma stream_image_Panicked value action :
  lacks_environment action = true →
  stream_image value action = Panicked "assignment to entry in nil map".
Proof.
  unfold lacks_environment, stream_image.
  destruct (String.eqb _ _); [|done]. cbn.
  destruct (Action_Environment action); [|done].
  by rewrite bool_decide_eq_false_2.
Qed.

Lemma elem_of_actions_of t action :
  action ∈ actions_of t
  ↔ ∃ task, task ∈ Workflow_Tasks (TinkerbellTemplateConfig_Template t)
            ∧ action ∈ Task_Actions task.
Proof.
  unfold actions_of. rewrite list_elem_of_bind. split.
  - intros (task & ? & ?). by exists task.
  - intros (task & ? & ?). by exists task.
Qed.

Lemma each_action_Returned value t :
  (∀ action, action ∈ actions_of t → lacks_environment action = false) →
  each_action (stream_image value) t = Returned (map_actions (set_image_url value) t).
Proof.
  intros Hok. unfold each_action, map_actions.
  rewrite (each_Returned _ (λ task, mkTask (set_image_url value <$> Task_Actions task))).
  - done.
  - intros task Htask.
    rewrite (each_Returned _ (set_image_url value)); [done|].
    intros action Haction. apply stream_image_Returned, Hok, elem_of_actions_of.
    by exists task.
Qed.

Lemma each_action_Panicked value t action :
  action ∈ actions_of t → lacks_environment action = true →
  ∃ reason, each_action (stream_image value) t = Panicked reason.
Proof.
  intros (task & Htask & Haction)%elem_of_actions_of Hlacks. unfold each_action.
  destruct (each_Panicked (stream_image value) (Task_Actions task) action
              "assignment to entry in nil map" Haction
              (stream_image_Panicked value action Hlacks)) as [reason Hreason].
  edestruct (each_Panicked
               (λ task, match each (stream_image value) (Task_Actions task) with
                        | Panicked reason => Panicked reason
                        | Returned actions => Returned (mkTask actions)
                        end)
               (Workflow_Tasks (TinkerbellTemplateConfig_Template t)) task reason Htask)
    as [reason' ->].
  - by rewrite Hreason.
  - by eexists.
Qed.

(** X11.  [WithImageUrlForAllTinkerbellMachines] sets [IMG_URL] to the
    value in the environment of every action named [stream-image], in every
    task of every template, and changes nothing else: neither the other
    actions, nor the other variables, nor the machine and datacenter
    configs.  It panics (a write to a nil map) exactly when some
    [stream-image] action has no environment map. *)
Theorem WithImageUrlForAllTinkerbellMachines_sets_every_stream_image value config :
  ((∀ name t action,
      templateConfigs config !! name = Some t → action ∈ actions_of t →
      lacks_environment action = false) →
   WithImageUrlForAllTinkerbellMachines value config
   = Returned
       (None,
        set_templateConfigs
          (map_actions (set_image_url value) <$> templateConfigs config) config))
  ∧ (∀ name t action,
       templateConfigs config !! name = Some t → action ∈ actions_of t →
       lacks_environment action = true →
       ∃ reason, WithImageUrlForAllTinkerbellMachines value config = Panicked reason)
  ∧ (∀ action,
       (Action_Name action = "stream-image" →
        ∀ env, Action_Environment action = Some env →
               Action_Environment (set_image_url value action)
               = Some (<["IMG_URL" := value]> env))
       ∧ (Action_Name action ≠ "stream-image" → set_image_url value action = action)).
Proof.
  split_and!.
  - intros Hok. unfold WithImageUrlForAllTinkerbellMachines.
    rewrite (each_value_Returned _ (map_actions (set_image_url value))); [done|].
    intros name t Ht. apply each_action_Returned. intros action. by apply (Hok name).
  - intros name t action Ht Haction Hlacks. unfold WithImageUrlForAllTinkerbellMachines.
    destruct (each_action_Panicked value t action Haction Hlacks) as [reason Hreason].
    destruct (each_value_Panicked _ _ name t reason Ht Hreason) as [reason' ->].
    by eexists.
  - intros action. unfold set_image_url. split.
    + intros -> env ->. done.
    + intros Hname. destruct (String.eqb_spec (Action_Name action) "stream-image"); done.
Qed.


(** *** The machine fillers *)

(** X12.  [WithSSHAuthorizedKeyForAllTinkerbellMachines] returns nil and
    keeps the set of machine configs.  In each of them the first user is
    afterwards named [ec2-user] and authorizes the key alone, whatever its
    name and keys were; a machine with no user gets this one user; the
    users after the first and every other field of the machine config are
    kept. *)
Theorem WithSSHAuthorizedKeyForAllTinkerbellMachines_sets_the_first_user key config :
  ∃ config',
    WithSSHAuthorizedKeyForAllTinkerbellMachines key config = Returned (None, config')
    ∧ clusterConfig config' = clusterConfig config
    ∧ datacenterConfig config' = datacenterConfig config
    ∧ templateConfigs config' = templateConfigs config
    ∧ dom (machineConfigs config') = dom (machineConfigs config)
    ∧ ∀ name m,
        machineConfigs config !! name = Some m →
        ∃ m',
          machineConfigs config' !! name = Some m'
          ∧ Users (TinkerbellMachineConfig_Spec m') !! 0%nat
            = Some (mkUserConfiguration "ec2-user" [key])
          ∧ length (Users (TinkerbellMachineConfig_Spec m'))
            = max 1 (length (Users (TinkerbellMachineConfig_Spec m)))
          ∧ (∀ i, Users (TinkerbellMachineConfig_Spec m') !! S i
                  = Users (TinkerbellMachineConfig_Spec m) !! S i)
          ∧ set_Spec (set_Users (Users (TinkerbellMachineConfig_Spec m))) m' = m.
Proof.
  eexists. split; [reflexivity|]. cbn. split_and!; try done.
  - by rewrite dom_fmap_L.
  - intros name m Hm. exists (authorize key m).
    rewrite lookup_fmap, Hm. split; [done|].
    destruct m as [kind version mname [sel ref os users]].
    unfold authorize. cbn. destruct users as [|u users]; cbn; by split_and!.
Qed.

(** X13.  The two fillers over all machines do not get in each other's way
    and settle at once: the OS family filler and the SSH key filler give
    the same config in either order, and applying the OS family filler
    again with another value leaves the config that value alone gives. *)
Theorem machine_fillers_commute value value' key config :
  apply_fillers [WithOsFamilyForAllTinkerbellMachines value;
                 WithSSHAuthorizedKeyForAllTinkerbellMachines key] config
  = apply_fillers [WithSSHAuthorizedKeyForAllTinkerbellMachines key;
                   WithOsFamilyForAllTinkerbellMachines value] config
  ∧ apply_fillers [WithOsFamilyForAllTinkerbellMachines value';
                   WithOsFamilyForAllTinkerbellMachines value] config
    = apply_fillers [WithOsFamilyForAllTinkerbellMachines value] config
  ∧ apply_fillers [WithSSHAuthorizedKeyForAllTinkerbellMachines key;
                   WithSSHAuthorizedKeyForAllTinkerbellMachines key] config
    = apply_fillers [WithSSHAuthorizedKeyForAllTinkerbellMachines key] config.
Proof.
  cbn. unfold set_machineConfigs. cbn. rewrite <- !map_fmap_compose.
  split_and!; do 3 f_equal; apply map_fmap_ext; intros name m _; cbn;
    destruct m as [kind version mname [sel ref os users]];
    unfold authorize; cbn; by destruct users.
Qed.

(** X14.  [WithTinkerbellEtcdMachineConfig] and
    [WithCustomTinkerbellMachineConfig] return nil and never replace or
    drop a machine config: every machine config there before is there
    after, unchanged.  Afterwards there is one under the etcd node name
    (under the selector); when that name was free it is the new config,
    labelled [ExternalEtcd] and referring to the template named after the
    cluster (labelled with the selector itself).  Applied a second time,
    either filler changes nothing. *)
Theorem machine_config_fillers_add_only_what_is_missing selector config :
  let etcd := providers_GetEtcdNodeName (anywherev1.Cluster_Name (clusterConfig config)) in
  (∃ config',
     WithTinkerbellEtcdMachineConfig config = Returned (None, config')
     ∧ (∀ k m, machineConfigs config !! k = Some m → machineConfigs config' !! k = Some m)
     ∧ (∀ k, k ≠ etcd → machineConfigs config' !! k = machineConfigs config !! k)
     ∧ is_Some (machineConfigs config' !! etcd)
     ∧ (machineConfigs config !! etcd = None →
        ∃ m, machineConfigs config' !! etcd = Some m
             ∧ TinkerbellMachineConfig_Name m = etcd
             ∧ HardwareSelector (TinkerbellMachineConfig_Spec m)
               = {[ HardwareLabelTypeKeyName := ExternalEtcd ]}
             ∧ TemplateRef (TinkerbellMachineConfig_Spec m)
               = mkRef (anywherev1.Cluster_Name (clusterConfig config))
                   TinkerbellTemplateConfigKind)
     ∧ WithTinkerbellEtcdMachineConfig config' = Returned (None, config'))
  ∧ (∃ config',
       WithCustomTinkerbellMachineConfig selector config = Returned (None, config')
       ∧ (∀ k m, machineConfigs config !! k = Some m → machineConfigs config' !! k = Some m)
       ∧ (∀ k, k ≠ selector → machineConfigs config' !! k = machineConfigs config !! k)
       ∧ is_Some (machineConfigs config' !! selector)
       ∧ (machineConfigs config !! selector = None →
          ∃ m, machineConfigs config' !! selector = Some m
               ∧ TinkerbellMachineConfig_Name m = selector
               ∧ HardwareSelector (TinkerbellMachineConfig_Spec m)
                 = {[ HardwareLabelTypeKeyName := selector ]})
       ∧ WithCustomTinkerbellMachineConfig selector config' = Returned (None, config')).
Proof.
  intros etcd. subst etcd. split.
  - unfold WithTinkerbellEtcdMachineConfig. cbv zeta.
    set (etcd := providers_GetEtcdNodeName _).
    destruct (machineConfigs config !! etcd) as [m0|] eqn:Hetcd.
    + exists config. rewrite Hetcd. split_and!; try done.
      subst etcd. by rewrite Hetcd.
    + eexists. split; [reflexivity|]. cbn. split_and!.
      * intros k m Hk. rewrite lookup_insert_ne; [done|]. intros <-. congruence.
      * intros k Hk. by rewrite lookup_insert_ne.
      * rewrite lookup_insert_eq. by eexists.
      * intros _. eexists. rewrite lookup_insert_eq. by split_and!.
      * by rewrite lookup_insert_eq.
  - unfold WithCustomTinkerbellMachineConfig.
    destruct (machineConfigs config !! selector) as [m0|] eqn:Hsel.
    + exists config. rewrite Hsel. by split_and!.
    + eexists. split; [reflexivity|]. cbn. split_and!.
      * intros k m Hk. rewrite lookup_insert_ne; [done|]. intros <-. congruence.
      * intros k Hk. by rewrite lookup_insert_ne.
      * rewrite lookup_insert_eq. by eexists.
      * intros _. eexists. rewrite lookup_insert_eq. by split_and!.
      * by rewrite lookup_insert_eq.
Qed.

(** X15.  [WithHardwareSelectorLabels] returns, with a nil error, exactly
    when the config holds a machine config under the control plane node
    name and one under the cluster name; otherwise it panics on a nil
    pointer.  When it returns, the machine config under the cluster name is
    labelled [Worker], the one under the control plane node name is
    labelled [ControlPlane] unless the two names are the same, nothing but
    the hardware selector of these two changes, and every other machine
    config is as before. *)
Theorem WithHardwareSelectorLabels_labels_both_roles config :
  let workerName := anywherev1.Cluster_Name (clusterConfig config) in
  let cpName := providers_GetControlPlaneNodeName workerName in
  ((∃ reason, WithHardwareSelectorLabels config = Panicked reason)
   ↔ machineConfigs config !! cpName = None ∨ machineConfigs config !! workerName = None)
  ∧ (∀ cp worker,
       machineConfigs config !! cpName = Some cp →
       machineConfigs config !! workerName = Some worker →
       ∃ config',
         WithHardwareSelectorLabels config = Returned (None, config')
         ∧ machineConfigs config' !! workerName
           = Some (set_Spec (set_HardwareSelector {[ HardwareLabelTypeKeyName := Worker ]})
                     worker)
         ∧ (cpName ≠ workerName →
            machineConfigs config' !! cpName
            = Some (set_Spec
                      (set_HardwareSelector {[ HardwareLabelTypeKeyName := ControlPlane ]})
                      cp))
         ∧ (∀ k, k ≠ cpName → k ≠ workerName →
                 machineConfigs config' !! k = machineConfigs config !! k)
         ∧ dom (machineConfigs config') = dom (machineConfigs config)
         ∧ clusterConfig config' = clusterConfig config
         ∧ datacenterConfig config' = datacenterConfig config
         ∧ templateConfigs config' = templateConfigs config).
Proof.
  intros workerName cpName. unfold WithHardwareSelectorLabels. fold workerName cpName.
  destruct (machineConfigs config !! cpName) as [cp|] eqn:Hcp; cbn;
    [|split; [split; [by left|by eexists]|done]].
  destruct (decide (cpName = workerName)) as [Heq|Hne].
  - rewrite <- Heq in *. rewrite lookup_insert_eq. rewrite Hcp. split.
    + split; [by intros [? ?]|by intros [?|?]].
    + intros ? worker [= <-] [= <-]. eexists. split; [reflexivity|]. cbn.
      split_and!; try done.
      * by rewrite lookup_insert_eq.
      * intros k Hk _. by rewrite !lookup_insert_ne.
      * rewrite dom_insert_lookup_L by (rewrite lookup_insert_eq; by eexists).
        apply dom_insert_lookup_L. by eexists.
  - rewrite lookup_insert_ne by done.
    destruct (machineConfigs config !! workerName) as [worker|] eqn:Hworker; cbn.
    + split.
      * split; [by intros [? ?]|by intros [?|?]].
      * intros ? ? [= <-] [= <-]. eexists. split; [reflexivity|]. cbn.
        split_and!; try done.
        -- by rewrite lookup_insert_eq.
        -- intros _. rewrite lookup_insert_ne by done. by rewrite lookup_insert_eq.
        -- intros k Hk1 Hk2. by rewrite !lookup_insert_ne.
        -- rewrite dom_insert_lookup_L
             by (rewrite lookup_insert_ne by done; by eexists).
           apply dom_insert_lookup_L. by eexists.
    + split; [|done]. split; [by right|by eexists].
Qed.

(** X16.  [WithCustomControlPlaneTemplateConfig] and
    [WithCustomWorkerTemplateConfig]: when no versions bundle is found for
    the cluster's Kubernetes version, the error comes back wrapped and the
    config is left as it was.  Otherwise the template built for the node
    name is stored under the template's own name, and the machine config
    under the node name is made to refer to a template named as the node,
    of the template kind; the other machine configs and templates stay.
    With no machine config under the node name the filler panics. *)
Theorem template_fillers_store_and_refer bootstrapIp ip disk osFamily config :
  let version := anywherev1.Cluster_KubernetesVersion (clusterConfig config) in
  let workerName := anywherev1.Cluster_Name (clusterConfig config) in
  let cpName := providers_GetControlPlaneNodeName workerName in
  let osImageURL := OSImageURL (TinkerbellDatacenterConfig_Spec (datacenterConfig config)) in
  (∀ err,
     GetVersionsBundleForVersion version = inl err →
     WithCustomControlPlaneTemplateConfig bootstrapIp ip disk osFamily config
     = Returned (Some (fmt_Errorf_v "creating control plane node template config: " err),
                 config)
     ∧ WithCustomWorkerTemplateConfig bootstrapIp ip disk osFamily config
       = Returned (Some (fmt_Errorf_v "creating worker node template config: " err),
                   config))
  ∧ (∀ bundle,
       GetVersionsBundleForVersion version = inr bundle →
       (machineConfigs config !! cpName = None →
        ∃ reason,
          WithCustomControlPlaneTemplateConfig bootstrapIp ip disk osFamily config
          = Panicked reason)
       ∧ (machineConfigs config !! workerName = None →
          ∃ reason,
            WithCustomWorkerTemplateConfig bootstrapIp ip disk osFamily config
            = Panicked reason))
  ∧ (∀ bundle name m filler,
       GetVersionsBundleForVersion version = inr bundle →
       (name = cpName ∧ filler = WithCustomControlPlaneTemplateConfig)
       ∨ (name = workerName ∧ filler = WithCustomWorkerTemplateConfig) →
       machineConfigs config !! name = Some m →
       let t := NewDefaultTinkerbellTemplateConfigCreate name bundle disk osImageURL
                  bootstrapIp ip osFamily in
       ∃ config',
         filler bootstrapIp ip disk osFamily config = Returned (None, config')
         ∧ templateConfigs config' !! TinkerbellTemplateConfig_Name t = Some t
         ∧ (∀ k, k ≠ TinkerbellTemplateConfig_Name t →
                 templateConfigs config' !! k = templateConfigs config !! k)
         ∧ machineConfigs config' !! name
           = Some (set_Spec (set_TemplateRef (mkRef name TinkerbellTemplateConfigKind)) m)
         ∧ (∀ k, k ≠ name → machineConfigs config' !! k = machineConfigs config !! k)).
Proof.
  intros version workerName cpName osImageURL. split_and!.
  - intros err Herr.
    unfold WithCustomControlPlaneTemplateConfig, WithCustomWorkerTemplateConfig.
    fold version. by rewrite Herr.
  - intros bundle Hbundle.
    unfold WithCustomControlPlaneTemplateConfig, WithCustomWorkerTemplateConfig.
    fold version workerName cpName. rewrite Hbundle.
    split; intros ->; by eexists.
  - intros bundle name m filler Hbundle Hwhich Hm t.
    destruct Hwhich as [[-> ->]|[-> ->]].
    + unfold WithCustomControlPlaneTemplateConfig.
      fold version workerName cpName osImageURL. rewrite Hbundle, Hm. fold t.
      eexists. split; [reflexivity|]. cbn. split_and!.
      * by rewrite lookup_insert_eq.
      * intros k Hk. by rewrite lookup_insert_ne.
      * by rewrite lookup_insert_eq.
      * intros k Hk. by rewrite lookup_insert_ne.
    + unfold WithCustomWorkerTemplateConfig.
      fold version workerName osImageURL. rewrite Hbundle, Hm. fold t.
      eexists. split; [reflexivity|]. cbn. split_and!.
      * by rewrite lookup_insert_eq.
      * intros k Hk. by rewrite lookup_insert_ne.
      * by rewrite lookup_insert_eq.
      * intros k Hk. by rewrite lookup_insert_ne.
Qed.


(** *** [AutoFillTinkerbellProvider] *)

Lemma apply_fillers_app pre rest config config1 :
  apply_fillers pre config = Returned (None, config1) →
  apply_fillers (pre ++ rest) config = apply_fillers rest config1.
Proof.
  revert config. induction pre as [|f pre IH]; intros config; cbn.
  - by intros [= ->].
  - destruct (f config) as [[[err|] config0]|reason]; try done. apply IH.
Qed.

Lemma apply_fillers_Panicked fillers config reason :
  apply_fillers fillers config = Panicked reason →
  ∃ pre f post config1,
    fillers = pre ++ f :: post
    ∧ apply_fillers pre config = Returned (None, config1)
    ∧ f config1 = Panicked reason.
Proof.
  revert config. induction fillers as [|f fillers IH]; intros config; cbn; [done|].
  destruct (f config) as [[[err|] config0]|reason0] eqn:Hf; try done.
  - intros (pre & g & post & config1 & -> & Hpre & Hg)%IH.
    exists (f :: pre), g, post, config1. cbn. by rewrite Hf.
  - intros [= ->]. by exists [], f, fillers, config.
Qed.

Lemma marshal_all_inr resources ys :
  marshal_all resources = inr ys ↔ Forall2 (λ r y, yaml_Marshal r = inr y) resources ys.
Proof.
  revert ys. induction resources as [|r resources IH]; intros ys; cbn.
  - split; [intros [= <-]; constructor|by intros ->%Forall2_nil_inv_l].
  - split.
    + destruct (yaml_Marshal r) as [err|y] eqn:Hr; [done|].
      destruct (marshal_all resources) as [err|ys'] eqn:Hrest; [done|].
      intros [= <-]. constructor; [done|]. by apply IH.
    + intros (y & ys' & Hr & Hrest & ->)%Forall2_cons_inv_l.
      rewrite Hr. apply IH in Hrest. by rewrite Hrest.
Qed.

Lemma marshal_all_inl resources err :
  marshal_all resources = inl err →
  ∃ pre r post err0,
    resources = pre ++ r :: post
    ∧ Forall (λ r, is_Some (match yaml_Marshal r with inr y => Some y | inl _ => None end)) pre
    ∧ yaml_Marshal r = inl err0
    ∧ err = fmt_Errorf_v "marshalling tinkerbell resource: " err0.
Proof.
  induction resources as [|r resources IH]; cbn; [done|].
  destruct (yaml_Marshal r) as [err0|y] eqn:Hr.
  - intros [= <-]. exists [], r, resources, err0. by split_and!.
  - destruct (marshal_all resources) as [err'|ys'] eqn:Hrest; [|done].
    intros [= ->]. destruct (IH eq_refl) as (pre & r0 & post & err0 & -> & Hpre & Hr0 & ->).
    exists (r :: pre), r0, post, err0. split_and!; try done.
    constructor; [|done]. rewrite Hr. by eexists.
Qed.

Lemma marshal_all_is_inr resources :
  (∀ r, r ∈ resources → ∃ y, yaml_Marshal r = inr y) →
  ∃ ys, marshal_all resources = inr ys.
Proof.
  induction resources as [|r resources IH]; cbn; intros Hall; [by eexists|].
  destruct (Hall r) as [y ->]; [by left|].
  destruct IH as [ys ->]; [|by eexists].
  intros r0 Hr0. apply Hall. by right.
Qed.

Lemma marshalled_values {A} (wrap : A → Resource) (m : gmap string A) docs :
  Forall2 (λ r y, yaml_Marshal r = inr y) (wrap <$> (map_to_list m).*2) docs →
  length docs = size m
  ∧ ∀ name x, m !! name = Some x → ∃ doc, doc ∈ docs ∧ yaml_Marshal (wrap x) = inr doc.
Proof.
  intros Hdocs. split.
  - rewrite <- (Forall2_length _ _ _ Hdocs), !length_fmap. apply length_map_to_list.
  - intros name x Hx.
    assert (Hin : wrap x ∈ wrap <$> (map_to_list m).*2).
    { apply list_elem_of_fmap_2.
      apply (list_elem_of_fmap_2' snd _ (name, x)); [|done].
      by apply elem_of_map_to_list. }
    apply list_elem_of_lookup in Hin as [i Hi].
    destruct (Forall2_lookup_l _ _ _ _ _ Hdocs Hi) as (doc & Hdoc & Hy).
    exists doc. split; [|done]. by apply list_elem_of_lookup_2 in Hdoc.
Qed.

(** X17.  [AutoFillTinkerbellProvider] applies the fillers in the order
    given, each to the config the ones before it have left, and stops at
    the first that returns an error: the fillers after it have no say in
    the result (not even one that would panic), and the error comes back
    behind the words [failed to apply tinkerbell config filler: ]. *)
Theorem AutoFillTinkerbellProvider_stops_at_the_first_failing_filler
    filename dc ms ts cl pre f post config1 config2 err :
  GetTinkerbellDatacenterConfig filename = inr dc →
  GetTinkerbellMachineConfigs filename = inr ms →
  GetTinkerbellTemplateConfig filename = inr ts →
  GetClusterConfig filename = inr cl →
  apply_fillers pre (mkTinkerbellConfig cl dc ms ts) = Returned (None, config1) →
  f config1 = Returned (Some err, config2) →
  AutoFillTinkerbellProvider filename (pre ++ f :: post)
  = Returned (inl (fmt_Errorf_v "failed to apply tinkerbell config filler: " err)).
Proof.
  intros Hdc Hms Hts Hcl Hpre Hf. unfold AutoFillTinkerbellProvider.
  rewrite Hdc, Hms, Hts, Hcl. rewrite (apply_fillers_app _ _ _ _ Hpre). cbn.
  by rewrite Hf.
Qed.

(** X18.  When the four parts of the file are read and every filler
    returns nil, [AutoFillTinkerbellProvider] marshals the config the
    fillers have left, not the one that was read.  If every resource of
    that config can be marshalled, the result is the join of one YAML
    document for the datacenter config, then one for each machine config,
    then one for each template config.  If some resource cannot, the
    result is the error of such a resource behind the words [marshalling
    tinkerbell resource: ], and it is that of the datacenter config when
    this is one that cannot. *)
Theorem AutoFillTinkerbellProvider_marshals_what_the_fillers_left
    filename dc ms ts cl fillers config' :
  GetTinkerbellDatacenterConfig filename = inr dc →
  GetTinkerbellMachineConfigs filename = inr ms →
  GetTinkerbellTemplateConfig filename = inr ts →
  GetClusterConfig filename = inr cl →
  apply_fillers fillers (mkTinkerbellConfig cl dc ms ts) = Returned (None, config') →
  ((∀ r, r ∈ resources_of config' → ∃ y, yaml_Marshal r = inr y) →
   ∃ y yms yts,
     AutoFillTinkerbellProvider filename fillers
     = Returned (inr (templater_AppendYamlResources (y :: yms ++ yts)))
     ∧ yaml_Marshal (DatacenterResource (datacenterConfig config')) = inr y
     ∧ length yms = size (machineConfigs config')
     ∧ length yts = size (templateConfigs config')
     ∧ (∀ name m, machineConfigs config' !! name = Some m →
          ∃ doc, doc ∈ yms ∧ yaml_Marshal (MachineResource m) = inr doc)
     ∧ (∀ name t, templateConfigs config' !! name = Some t →
          ∃ doc, doc ∈ yts ∧ yaml_Marshal (TemplateResource t) = inr doc))
  ∧ (∀ r err0,
       r ∈ resources_of config' → yaml_Marshal r = inl err0 →
       ∃ r1 err1,
         r1 ∈ resources_of config'
         ∧ yaml_Marshal r1 = inl err1
         ∧ AutoFillTinkerbellProvider filename fillers
           = Returned (inl (fmt_Errorf_v "marshalling tinkerbell resource: " err1)))
  ∧ (∀ err0,
       yaml_Marshal (DatacenterResource (datacenterConfig config')) = inl err0 →
       AutoFillTinkerbellProvider filename fillers
       = Returned (inl (fmt_Errorf_v "marshalling tinkerbell resource: " err0))).
Proof.
  intros Hdc Hms Hts Hcl Hfill. unfold AutoFillTinkerbellProvider.
  rewrite Hdc, Hms, Hts, Hcl, Hfill. split_and!.
  - intros Hall. destruct (marshal_all_is_inr _ Hall) as [ys Hys]. rewrite Hys.
    apply marshal_all_inr in Hys. unfold resources_of in Hys.
    apply Forall2_cons_inv_l in Hys as (y & ys' & Hy & Hrest & ->).
    apply Forall2_app_inv_l in Hrest as (yms & yts & Hyms & Hyts & ->).
    destruct (marshalled_values MachineResource _ _ Hyms) as [Hlenm Hm].
    destruct (marshalled_values TemplateResource _ _ Hyts) as [Hlent Ht].
    by exists y, yms, yts.
  - intros r err0 Hr Herr0.
    destruct (marshal_all (resources_of config')) as [err|ys] eqn:Hall.
    + apply marshal_all_inl in Hall as (pre & r1 & post & err1 & Hsplit & _ & Hr1 & ->).
      exists r1, err1. split_and!; try done.
      rewrite Hsplit. apply elem_of_app. right. by left.
    + apply marshal_all_inr in Hall.
      apply list_elem_of_lookup in Hr as [i Hi].
      destruct (Forall2_lookup_l _ _ _ _ _ Hall Hi) as (y & _ & Hy). congruence.
  - intros err0 Herr0. unfold resources_of. cbn. by rewrite Herr0.
Qed.

(** X19.  [AutoFillTinkerbellProvider] itself never panics: when it does
    not return, the four parts of the file had been read, the fillers
    before some filler had all returned nil, and that filler panicked on
    the config they left.  In particular it returns for every list of
    fillers when a part of the file cannot be read. *)
Theorem AutoFillTinkerbellProvider_panics_only_in_a_filler filename fillers reason :
  AutoFillTinkerbellProvider filename fillers = Panicked reason →
  ∃ dc ms ts cl pre f post config1,
    GetTinkerbellDatacenterConfig filename = inr dc
    ∧ GetTinkerbellMachineConfigs filename = inr ms
    ∧ GetTinkerbellTemplateConfig filename = inr ts
    ∧ GetClusterConfig filename = inr cl
    ∧ fillers = pre ++ f :: post
    ∧ apply_fillers pre (mkTinkerbellConfig cl dc ms ts) = Returned (None, config1)
    ∧ f config1 = Panicked reason.
Proof.
  unfold AutoFillTinkerbellProvider.
  destruct (GetTinkerbellDatacenterConfig filename) as [?|dc]; [done|].
  destruct (GetTinkerbellMachineConfigs filename) as [?|ms]; [done|].
  destruct (GetTinkerbellTemplateConfig filename) as [?|ts]; [done|].
  destruct (GetClusterConfig filename) as [?|cl]; [done|].
  destruct (apply_fillers fillers _) as [[[err|] config']|reason0] eqn:Hfill.
  - done.
  - by destruct (marshal_all _).
  - intros [= ->].
    apply apply_fillers_Panicked in Hfill as (pre & f & post & config1 & ? & ? & ?).
    by exists dc, ms, ts, cl, pre, f, post, config1.
Qed.

End FillerFacts.

(** ** Evaluations of the further properties *)

Section MoreEvaluations.

#[local] Existing Instance scenario.imports.
#[local] Existing Instance e2e.infra.
#[local] Existing Instance sample.externals.

Import e2e tinkerbell v1alpha1 api.

(** A password with a NUL byte: the username is set, the password is not. *)
Lemma SetupEnvVars_keeps_username_when_password_is_refused_witness :
  let cli := client.mkClient (λ _, inr more.secret_binary_password) in
  let w := scenario.start scenario.datacenter_valid in
  (SetupEnvVars scenario.datacenter_valid cli w).1
  = Some (fmt_Errorf_v "failed setting env EKSA_VSPHERE_PASSWORD: "
            (errorString "setenv: invalid argument"))
  ∧ environ (process (SetupEnvVars scenario.datacenter_valid cli w).2)
    = <["EKSA_VSPHERE_USERNAME" := "administrator"]> ∅
  ∧ environ (process (SetupEnvVars scenario.datacenter_valid cli w).2)
    !! "EKSA_VSPHERE_USERNAME" = Some "administrator".
Proof.
  intros cli w.
  destruct (SetupEnvVars_keeps_username_when_password_is_refused
              scenario.datacenter_valid cli w more.secret_binary_password)
    as (Herr & Henv & Hlookup); try reflexivity.
  split_and!.
  - rewrite Herr. reflexivity.
  - rewrite Henv. reflexivity.
  - exact Hlookup.
Defined.

(** A secret with no field at all. *)
Lemma SetupEnvVars_reads_missing_fields_as_empty_witness :
  let cli := client.mkClient (λ _, inr more.secret_empty) in
  let w := scenario.start scenario.datacenter_valid in
  (SetupEnvVars scenario.datacenter_valid cli w).1 = None
  ∧ environ (process (SetupEnvVars scenario.datacenter_valid cli w).2)
    = {[ "EKSA_VSPHERE_USERNAME" := ""; "EKSA_VSPHERE_PASSWORD" := "";
         "VSPHERE_SERVER" := "vcenter.example.com" ]}
  ∧ new_events w (SetupEnvVars scenario.datacenter_valid cli w).2
    = [EvGet credentials_key;
       EvSetenv "EKSA_VSPHERE_USERNAME" "";
       EvSetenv "EKSA_VSPHERE_PASSWORD" "";
       EvVsphereSetupEnvVars scenario.datacenter_valid].
Proof.
  intros cli w.
  destruct (SetupEnvVars_reads_missing_fields_as_empty
              scenario.datacenter_valid cli w more.secret_empty)
    as (Herr & Henv & Hevents); try reflexivity.
  split_and!; [exact Herr| |exact Hevents].
  rewrite Henv. vm_compute. reflexivity.
Defined.

(** A valid datacenter config and a message left by an earlier pass: the
    message stays. *)
Lemma ValidateDatacenterConfig_touches_only_the_failure_message_witness :
  let w := mkWorld more.spec_with_stale_message scenario.idle in
  clusterSpec (ValidateDatacenterConfig scenario.green w).2 = clusterSpec w
  ∧ new_events w (ValidateDatacenterConfig scenario.green w).2
    = [EvPhase "validateDatacenterConfig"].
Proof.
  intros w.
  destruct (ValidateDatacenterConfig_touches_only_the_failure_message scenario.green w)
    as (_ & _ & _ & _ & _ & _ & Hvalid & _).
  apply Hvalid. reflexivity.
Defined.

(** The all-green collaborators. *)
Lemma ValidateMachineConfigs_passes_iff_witness :
  (ValidateMachineConfigs scenario.green (scenario.start scenario.datacenter_valid)).1.2
  = None.
Proof.
  apply (proj2 (ValidateMachineConfigs_passes_iff scenario.green
                  (scenario.start scenario.datacenter_valid))).
  eexists _, _. split; vm_compute; reflexivity.
Defined.

(** Both variables set. *)
Lemma setEnvironment_succeeds_iff_witness :
  let env := {[ "TEST_RUNNER_GOVC_USERNAME" := "ci";
                "TEST_RUNNER_GOVC_PASSWORD" := "s3cret" ]} in
  (setEnvironment runner env).1 = None
  ∧ (setEnvironment runner env).2
    = <["GOVC_INSECURE" := "true"]>
        (<["GOVC_URL" := "https://vcenter.example.com"]>
           (<["GOVC_PASSWORD" := "s3cret"]> (<["GOVC_USERNAME" := "ci"]> env))).
Proof.
  intros env.
  destruct (setEnvironment_succeeds_iff runner env) as ([_ Hnil] & Henv & _).
  assert (Hok : (setEnvironment runner env).1 = None).
  { apply Hnil. exists "ci", "s3cret". split_and!; done. }
  split; [exact Hok|]. apply (Henv "ci" "s3cret" Hok); reflexivity.
Defined.

(** No variable set; the username alone set. *)
Lemma setEnvironment_missing_variable_witness :
  setEnvironment runner ∅
  = (Some (errorString "missing environment variable: TEST_RUNNER_GOVC_USERNAME"), ∅)
  ∧ setEnvironment runner {[ "TEST_RUNNER_GOVC_USERNAME" := "ci" ]}
    = (Some (errorString "missing environment variable: TEST_RUNNER_GOVC_PASSWORD"),
       <["GOVC_USERNAME" := "ci"]> {[ "TEST_RUNNER_GOVC_USERNAME" := "ci" ]}).
Proof.
  split.
  - apply (proj1 (setEnvironment_missing_variable runner ∅)). by left.
  - apply (proj2 (setEnvironment_missing_variable runner
                    {[ "TEST_RUNNER_GOVC_USERNAME" := "ci" ]}) "ci");
      [reflexivity|done|reflexivity|by left].
Defined.

Lemma getTestRunnerName_injective_witness :
  getTestRunnerName "1234" = "eksa-e2e-1234" ∧ "1234" = "1234".
Proof.
  split; [reflexivity|]. apply (getTestRunnerName_injective "1234" "1234"). reflexivity.
Defined.

(** A template whose [stream-image] action has an environment, and one
    whose action has none. *)
Lemma WithImageUrlForAllTinkerbellMachines_sets_every_stream_image_witness :
  WithImageUrlForAllTinkerbellMachines "http://new/image.gz" sample.config
  = Returned
      (None,
       set_templateConfigs
         {[ "w01" := sample.template "w01"
                       (Some {[ "IMG_URL" := "http://new/image.gz";
                                "DEST_DISK" := "/dev/sda" ]}) ]}
         sample.config)
  ∧ ∃ reason,
      WithImageUrlForAllTinkerbellMachines "http://new/image.gz"
        sample.config_nil_environment = Panicked reason.
Proof.
  destruct (WithImageUrlForAllTinkerbellMachines_sets_every_stream_image
              "http://new/image.gz" sample.config) as (Hreturned & _ & _).
  destruct (WithImageUrlForAllTinkerbellMachines_sets_every_stream_image
              "http://new/image.gz" sample.config_nil_environment) as (_ & Hpanicked & _).
  split.
  - rewrite Hreturned; [vm_compute; reflexivity|].
    intros name t action Ht Haction.
    change (({[ "w01" := sample.template "w01"
                           (Some {[ "IMG_URL" := "http://old/image.gz";
                                    "DEST_DISK" := "/dev/sda" ]}) ]}
             : gmap string TinkerbellTemplateConfig) !! name = Some t) in Ht.
    apply lookup_singleton_Some in Ht as [_ <-].
    unfold actions_of, sample.template in Haction. cbn in Haction.
    apply elem_of_cons in Haction as [->|Haction]; [vm_compute; reflexivity|].
    apply elem_of_cons in Haction as [->|Haction]; [vm_compute; reflexivity|].
    apply elem_of_nil in Haction. destruct Haction.
  - apply (Hpanicked "w01" (sample.template "w01" None) (mkAction "stream-image" None)).
    + reflexivity.
    + by left.
    + reflexivity.
Defined.

(** The control plane machine of the sample config, which has two users. *)
Lemma WithSSHAuthorizedKeyForAllTinkerbellMachines_sets_the_first_user_witness :
  ∃ config' m',
    WithSSHAuthorizedKeyForAllTinkerbellMachines "ssh-rsa NEW" sample.config
    = Returned (None, config')
    ∧ machineConfigs config' !! "w01-cp" = Some m'
    ∧ Users (TinkerbellMachineConfig_Spec m')
      = [mkUserConfiguration "ec2-user" ["ssh-rsa NEW"];
         mkUserConfiguration "ops" ["ssh-rsa OPS"]].
Proof.
  destruct (WithSSHAuthorizedKeyForAllTinkerbellMachines_sets_the_first_user
              "ssh-rsa NEW" sample.config)
    as (config' & Hreturned & _ & _ & _ & _ & Hmachines).
  destruct (Hmachines "w01-cp" _ eq_refl) as (m' & Hm' & Hfirst & Hlen & Hrest & _).
  exists config', m'. split_and!; [exact Hreturned|exact Hm'|].
  specialize (Hrest 0%nat). cbn in Hlen, Hrest.
  destruct (Users (TinkerbellMachineConfig_Spec m')) as [|u [|u' [|u'' users]]];
    try discriminate Hlen.
  cbn in Hfirst, Hrest. by simplify_eq.
Defined.

(** The sample config has no etcd machine config: one is added. *)
Lemma machine_config_fillers_add_only_what_is_missing_witness :
  ∃ config' m,
    WithTinkerbellEtcdMachineConfig sample.config = Returned (None, config')
    ∧ machineConfigs config' !! "w01-etcd" = Some m
    ∧ HardwareSelector (TinkerbellMachineConfig_Spec m) = {[ "type" := "etcd" ]}
    ∧ TemplateRef (TinkerbellMachineConfig_Spec m) = mkRef "w01" "TinkerbellTemplateConfig"
    ∧ WithTinkerbellEtcdMachineConfig config' = Returned (None, config').
Proof.
  destruct (machine_config_fillers_add_only_what_is_missing "gpu" sample.config)
    as ((config' & Hreturned & _ & _ & _ & Hnew & Hagain) & _).
  destruct Hnew as (m & Hm & _ & Hsel & Href); [reflexivity|].
  by exists config', m.
Defined.

(** The sample config holds both machine configs; the bare one holds
    none. *)
Lemma WithHardwareSelectorLabels_labels_both_roles_witness :
  (∃ config',
     WithHardwareSelectorLabels sample.config = Returned (None, config')
     ∧ (HardwareSelector ∘ TinkerbellMachineConfig_Spec) <$> machineConfigs config' !! "w01"
       = Some {[ "type" := "worker" ]}
     ∧ (HardwareSelector ∘ TinkerbellMachineConfig_Spec) <$> machineConfigs config' !! "w01-cp"
       = Some {[ "type" := "cp" ]})
  ∧ ∃ reason, WithHardwareSelectorLabels sample.config_bare = Panicked reason.
Proof.
  destruct (WithHardwareSelectorLabels_labels_both_roles sample.config) as [_ Hboth].
  destruct (WithHardwareSelectorLabels_labels_both_roles sample.config_bare)
    as [[_ Hpanics] _].
  split.
  - destruct (Hboth _ _ eq_refl eq_refl)
      as (config' & Hreturned & Hworker & Hcp & _).
    exists config'. split_and!; [exact Hreturned| |].
    + exact (f_equal (fmap (HardwareSelector ∘ TinkerbellMachineConfig_Spec)) Hworker).
    + refine (f_equal (fmap (HardwareSelector ∘ TinkerbellMachineConfig_Spec)) (Hcp _)).
      by vm_compute.
  - apply Hpanics. by left.
Defined.

(** The worker template of the sample config; a cluster of a Kubernetes
    version with no bundle. *)
Lemma template_fillers_store_and_refer_witness :
  (∃ config' t,
     WithCustomWorkerTemplateConfig "10.0.0.1" "10.0.0.2" "/dev/sdb" "bottlerocket"
       sample.config = Returned (None, config')
     ∧ templateConfigs config' !! "w01" = Some t
     ∧ (TemplateRef ∘ TinkerbellMachineConfig_Spec) <$> machineConfigs config' !! "w01"
       = Some (mkRef "w01" "TinkerbellTemplateConfig"))
  ∧ WithCustomWorkerTemplateConfig "10.0.0.1" "10.0.0.2" "/dev/sdb" "bottlerocket"
      sample.config_old
    = Returned
        (Some (fmt_Errorf_v "creating worker node template config: "
                 (errorString "no bundle for this kubernetes version")),
         sample.config_old).
Proof.
  destruct (template_fillers_store_and_refer "10.0.0.1" "10.0.0.2" "/dev/sdb"
              "bottlerocket" sample.config) as (_ & _ & Hstored).
  destruct (template_fillers_store_and_refer "10.0.0.1" "10.0.0.2" "/dev/sdb"
              "bottlerocket" sample.config_old) as (Hfails & _ & _).
  split.
  - destruct (Hstored "v0.14.2" "w01" (sample.machine "w01" [])
                WithCustomWorkerTemplateConfig eq_refl)
      as (config' & Hreturned & Ht & _ & Hm & _); [by right|reflexivity|].
    eexists config', _. split_and!; [exact Hreturned|exact Ht|].
    exact (f_equal (fmap (TemplateRef ∘ TinkerbellMachineConfig_Spec)) Hm).
  - apply (Hfails (errorString "no bundle for this kubernetes version")). reflexivity.
Defined.

(** The second of three fillers fails: the third is not run. *)
Lemma AutoFillTinkerbellProvider_stops_at_the_first_failing_filler_witness :
  AutoFillTinkerbellProvider "old.yaml"
    ([WithTinkerbellServer "10.0.0.2"]
     ++ WithCustomWorkerTemplateConfig "10.0.0.1" "10.0.0.2" "/dev/sdb" "bottlerocket"
     :: [WithHardwareSelectorLabels])
  = Returned
      (inl (fmt_Errorf_v "failed to apply tinkerbell config filler: "
              (fmt_Errorf_v "creating worker node template config: "
                 (errorString "no bundle for this kubernetes version")))).
Proof.
  eapply (AutoFillTinkerbellProvider_stops_at_the_first_failing_filler "old.yaml"
            sample.datacenter sample.machine_configs sample.templates sample.old_cluster
            [WithTinkerbellServer "10.0.0.2"]
            (WithCustomWorkerTemplateConfig "10.0.0.1" "10.0.0.2" "/dev/sdb"
               "bottlerocket")
            [WithHardwareSelectorLabels]);
    reflexivity.
Defined.

(** The sample file with the OS family filler: one document for the
    datacenter config and one for each of the two machine configs and the
    template. *)
Lemma AutoFillTinkerbellProvider_marshals_what_the_fillers_left_witness :
  ∃ y yms yts,
    AutoFillTinkerbellProvider "cluster.yaml" [WithOsFamilyForAllTinkerbellMachines "ubuntu"]
    = Returned (inr (templater_AppendYamlResources (y :: yms ++ yts)))
    ∧ y = "kind: TinkerbellDatacenterConfig"
    ∧ length yms = 2%nat
    ∧ length yts = 1%nat.
Proof.
  destruct (AutoFillTinkerbellProvider_marshals_what_the_fillers_left "cluster.yaml"
              sample.datacenter sample.machine_configs sample.templates scenario.cluster
              [WithOsFamilyForAllTinkerbellMachines "ubuntu"]
              (set_machineConfigs (set_Spec (set_OSFamily "ubuntu") <$> sample.machine_configs)
                 sample.config))
    as [Hmarshalled _]; try reflexivity.
  destruct Hmarshalled as (y & yms & yts & Hreturned & Hy & Hlenm & Hlent & _).
  - intros r Hr. vm_compute in Hr.
    repeat (apply elem_of_cons in Hr as [->|Hr]; [by eexists|]).
    apply elem_of_nil in Hr. destruct Hr.
  - exists y, yms, yts. split_and!; [exact Hreturned| |exact Hlenm|exact Hlent].
    cbn in Hy. by injection Hy.
Defined.

(** A file with no machine config and the filler of the hardware selector
    labels. *)
Lemma AutoFillTinkerbellProvider_panics_only_in_a_filler_witness :
  ∃ dc ms ts cl pre f post config1,
    GetTinkerbellDatacenterConfig "bare.yaml" = inr dc
    ∧ GetTinkerbellMachineConfigs "bare.yaml" = inr ms
    ∧ GetTinkerbellTemplateConfig "bare.yaml" = inr ts
    ∧ GetClusterConfig "bare.yaml" = inr cl
    ∧ [WithTinkerbellServer "10.0.0.2"; WithHardwareSelectorLabels] = pre ++ f :: post
    ∧ apply_fillers pre (mkTinkerbellConfig cl dc ms ts) = Returned (None, config1)
    ∧ f config1 = Panicked "nil pointer dereference".
Proof.
  apply (AutoFillTinkerbellProvider_panics_only_in_a_filler "bare.yaml"
           [WithTinkerbellServer "10.0.0.2"; WithHardwareSelectorLabels]
           "nil pointer dereference").
  reflexivity.
Defined.

End MoreEvaluations.
